(** * The orderer's startup path (orderer/main.go) and the Message2 type
      enumeration (protos/fabric_next.proto), as a shallow embedding.

    Effectful code is written in a small trace-and-panic monad: every call
    that leaves main.go (the ledger, gRPC, the bootstrapper, the solo and
    kafka packages) is recorded as an event, a Go panic aborts the run, and
    the one unbounded loop of the file, the bootstrap scan, takes fuel. *)

From Stdlib.Strings Require Import Byte.
From stdpp Require Import gmap strings list fin_maps pretty.

Local Open Scope Z_scope.

(** ** Wire-level data *)

Abbreviation bytes := (list Byte.byte).
Abbreviation error := string.

Module Message2.

(** protos/fabric_next.proto, [message Message2 { enum Type {...} }]. *)
Inductive Type_ : Set :=
| UNDEFINED
| DISCOVERY
| SYNC
| PROPOSAL
| PROPOSAL_SET
| PROPOSAL_RESULT
| PROPOSAL_SET_RESULT
| TRANSACTION.

(** The tag numbers written in the .proto file. *)
Definition Type_number (t : Type_) : Z :=
  match t with
  | UNDEFINED => 0
  | DISCOVERY => 1
  | SYNC => 2
  | PROPOSAL => 3
  | PROPOSAL_SET => 4
  | PROPOSAL_RESULT => 5
  | PROPOSAL_SET_RESULT => 6
  | TRANSACTION => 7
  end.

(** The identifiers written in the .proto file. *)
Definition Type_ident (t : Type_) : string :=
  match t with
  | UNDEFINED => "UNDEFINED"
  | DISCOVERY => "DISCOVERY"
  | SYNC => "SYNC"
  | PROPOSAL => "PROPOSAL"
  | PROPOSAL_SET => "PROPOSAL_SET"
  | PROPOSAL_RESULT => "PROPOSAL_RESULT"
  | PROPOSAL_SET_RESULT => "PROPOSAL_SET_RESULT"
  | TRANSACTION => "TRANSACTION"
  end.

(** Every declared variant, in declaration order. *)
Definition Type_all : list Type_ :=
  [UNDEFINED; DISCOVERY; SYNC; PROPOSAL; PROPOSAL_SET; PROPOSAL_RESULT;
   PROPOSAL_SET_RESULT; TRANSACTION].

(** The two tables protoc derives from an enum: number to identifier and
    identifier to number. *)
Definition Type_name : gmap Z string :=
  list_to_map ((λ t, (Type_number t, Type_ident t)) <$> Type_all).

Definition Type_value : gmap string Z :=
  list_to_map ((λ t, (Type_ident t, Type_number t)) <$> Type_all).

(** The fields of Message2. *)
Record t := {
  type : Type_;
  version : Z;
  timestamp : Z;
  payload : bytes
}.

End Message2.

(** ** The stand-in crypto helper (main.go, lines 59-65) *)

(** The interface the policy manager expects of its crypto helper. *)
Class CryptoHelper (H : Type) := {
  VerifySignature : H → bytes → bytes → bytes → bool
}.

Inductive xxxCryptoHelper : Set := XxxCryptoHelper.

#[export] Instance xxxCryptoHelper_CryptoHelper : CryptoHelper xxxCryptoHelper := {
  VerifySignature _ _ _ _ := true
}.

(** A helper packed with its method table, as a Go interface value is. *)
Record CryptoHelperValue := {
  helper_type : Type;
  helper_impl : CryptoHelper helper_type;
  helper_value : helper_type
}.

Definition as_CryptoHelper {H} `{CryptoHelper H} (h : H) : CryptoHelperValue :=
  {| helper_type := H; helper_impl := _; helper_value := h |}.

Definition call_VerifySignature (h : CryptoHelperValue) (msg ids sigs : bytes) : bool :=
  @VerifySignature _ (helper_impl h) (helper_value h) msg ids sigs.

(** ** The ledger as main.go sees it *)

(** Modelled from the spec: the atomicbroadcast messages (ab.Status,
    ab.SeekInfo, ab.Block, ab.BroadcastMessage) are declared in the
    atomicbroadcast package, which main.go only imports.  Section 3 names the status codes and the seek
    positions; a block is a previous-block hash and an ordered sequence of
    opaque serialized messages, which main.go reads as [block.Messages] and
    [.Data]. *)
Inductive Status : Set :=
| Status_SUCCESS
| Status_BAD_REQUEST
| Status_NOT_FOUND
| Status_SERVICE_UNAVAILABLE.

#[export] Instance Status_eq_dec : EqDecision Status.
Proof. solve_decision. Defined.

Inductive SeekInfo_StartType : Set :=
| SeekInfo_NEWEST
| SeekInfo_OLDEST
| SeekInfo_SPECIFIED.

Record BroadcastMessage := { Data : bytes }.

Record Block := {
  PrevHash : bytes;
  Messages : list BroadcastMessage
}.

(** rawledger.Reader with its Iterator.  The cursor is mutable in Go; here
    [Next] returns the advanced cursor.  [ReadyChan] is what a non-blocking
    receive on the ready channel observes: [true] when the channel is
    immediately ready.  [Next] yields a block pointer ([None] is nil) and a
    status. *)
Record Reader := {
  cursor : Type;
  Iterator : SeekInfo_StartType → Z → cursor;
  ReadyChan : cursor → bool;
  Next : cursor → (option Block * Status) * cursor
}.

(** Modelled from the spec: the ledger implementations (ramledger,
    fileledger) are packages main.go only imports.  Section 4.1: a cursor
    opened at OLDEST starts at index 0, at NEWEST at the highest committed
    index, at SPECIFIED(n) at n; its ready signal is satisfied exactly when
    a next block is available; Next returns that block.  This is a store
    holding [chain] to which nobody appends. *)
Definition quiescentLedger (chain : list Block) : Reader := {|
  cursor := nat;
  Iterator start specified :=
    match start with
    | SeekInfo_OLDEST => 0%nat
    | SeekInfo_NEWEST => pred (length chain)
    | SeekInfo_SPECIFIED => Z.to_nat specified
    end;
  ReadyChan i := bool_decide (i < length chain)%nat;
  Next i :=
    match chain !! i with
    | Some b => ((Some b, Status_SUCCESS), S i)
    | None => ((None, Status_NOT_FOUND), i)
    end
|}.

(** ** Process configuration *)

(** Modelled from the spec: the config package is only imported by
    main.go; these are the fields main.go reads, grouped as it reads them
    (section 6: orderer mode, listen address and port, batch size, batch
    timeout, queue size, max window size, ledger parameters, replicated-log
    connection parameters). *)
Module config.

Record General := {
  OrdererType : string;
  ListenAddress : string;
  ListenPort : Z;
  GenesisMethod : string;
  QueueSize : Z;
  BatchSize : Z;
  MaxWindowSize : Z;
  BatchTimeout : Z
}.

Record RAMLedger := { HistorySize : Z }.

Record FileLedger := { Location : string; Prefix : string }.

Record Kafka := { Brokers : list string; Version : list Z }.

Record TopLevel := {
  general : General;
  ramLedger : RAMLedger;
  fileLedger : FileLedger;
  kafka : Kafka
}.

End config.

(** Go's [int(x)] on a 64-bit platform: the value reduced to a signed
    64-bit integer. *)
Definition int (x : Z) : Z := (x + 2 ^ 63) mod 2 ^ 64 - 2 ^ 63.

(** [fmt.Sprintf("%s:%d", address, port)]. *)
Definition Sprintf_address (address : string) (port : Z) : string :=
  address +:+ ":" +:+ pretty port.

(** sarama.V0_9_0_1 *)
Definition sarama_V0_9_0_1 : list Z := [0; 9; 0; 1].

(** ** Events, panics and the run monad *)

Record Listener := { listen_address : string }.

(** The arguments of solo.New, as launchSolo passes them; the gRPC server is
    the one created at the top of launchSolo. *)
Record SoloArgs := {
  solo_queueSize : Z;
  solo_batchSize : Z;
  solo_maxWindowSize : Z;
  solo_batchTimeout : Z;
  solo_rl : Reader
}.

Inductive Event :=
| EvGrpcNewServer
| EvListen (address : string)
| EvPrintln (line : string)
| EvStaticNew
| EvGenesisBlock
| EvGetenv (key : string)
| EvTempDir (prefix : string)
| EvFileLedgerNew (location : string) (genesis : Block)
| EvRamLedgerNew (historySize : Z) (genesis : Block)
| EvIterator (start : SeekInfo_StartType) (specified : Z)
| EvNext (status : Status)
| EvNewManagerImpl (helper : CryptoHelperValue)
| EvNewConfigurationManager
| EvSoloNew (args : SoloArgs)
| EvServe (lis : Listener)
| EvFlagParse
| EvKafkaSetLogLevel (level : string)
| EvSaramaLogger
| EvKafkaNew (conf : config.TopLevel)
| EvKafkaTeardown
| EvRegisterAtomicBroadcastServer
| EvGoServe (lis : Listener)
| EvSignalNotify.

Inductive PanicValue :=
| PanicInvalidOrdererType
| PanicParsingBlockchain (status : Status)
| PanicNilPointer
| PanicIndexOutOfRange
| PanicConfigurationManager (err : error)
| PanicUnknownGenesisMethod (method : string)
| PanicGenesisBlock (err : error)
| PanicTempDir (err : error)
| PanicNoChainConfiguration
| PanicListen (err : error).

(** How a piece of code ends: it returns a value, it panics, the process
    exits, or it is still running when the fuel is spent or because it
    waits for something that never comes. *)
Inductive Result (A : Type) :=
| Done (a : A)
| Panicked (p : PanicValue)
| Exited (code : Z)
| Running.
Arguments Done {A} a.
Arguments Panicked {A} p.
Arguments Exited {A} code.
Arguments Running {A}.

Definition Run (A : Type) : Type := list Event * Result A.

#[export] Instance Run_ret : MRet Run := λ A a, ([], Done a).

#[export] Instance Run_bind : MBind Run := λ A B k m,
  match m with
  | (t, Done a) => let '(t', r) := k a in (t ++ t', r)
  | (t, Panicked p) => (t, Panicked p)
  | (t, Exited c) => (t, Exited c)
  | (t, Running) => (t, Running)
  end.

Definition emit (e : Event) : Run unit := ([e], Done tt).
Definition panic {A} (p : PanicValue) : Run A := ([], Panicked p).

(** [defer f] around a body: [f] runs when the body returns and when it
    panics, not when the process exits or never leaves the body. *)
Definition defer {A} (deferred : Event) (body : Run A) : Run A :=
  match body with
  | (t, Done a) => (t ++ [deferred], Done a)
  | (t, Panicked p) => (t ++ [deferred], Panicked p)
  | other => other
  end.

Definition trace {A} (r : Run A) : list Event := r.1.
Definition result {A} (r : Run A) : Result A := r.2.

(** ** The packages main.go calls into *)

(** configtx.Handler: the policy manager, or a bytes handler made by
    configtx.NewBytesHandler(). *)
Inductive Handler (PolicyManager : Type) :=
| PolicyHandler (policyManager : PolicyManager)
| BytesHandler.
Arguments PolicyHandler {PolicyManager} policyManager.
Arguments BytesHandler {PolicyManager}.

(** What main.go uses of proto, atomicbroadcast, policies, the static
    bootstrapper and the two ledger packages; main.go only imports them,
    so each is a field here.  [proto_Unmarshal] is [Some] exactly
    when proto.Unmarshal returns a nil error. *)
Record Packages := {
  ConfigurationEnvelope : Type;
  proto_Unmarshal : bytes → option ConfigurationEnvelope;
  Configuration_ConfigurationType_name : gmap Z string;
  Configuration_Policy : Z;
  PolicyManager : Type;
  policies_NewManagerImpl : CryptoHelperValue → PolicyManager;
  static_GenesisBlock : Block + error;
  fileledger_New : string → Block → Reader;
  ramledger_New : Z → Block → Reader
}.

(** configtx.NewConfigurationManager and the manager it builds. *)
Record Configtx (P : Packages) := {
  Manager : Type;
  NewConfigurationManager :
    ConfigurationEnvelope P → PolicyManager P → gmap Z (Handler (PolicyManager P)) →
    Manager + error
}.
Arguments Manager {P} _.
Arguments NewConfigurationManager {P} _ _ _ _.

(** The operating system around one run of the process. *)
Record Host := {
  net_Listen : string → Listener + error;
  os_Getenv : string → string;
  ioutil_TempDir : string → string → string + error;
  (** flag.Parse(): the values of -loglevel and -verbose, or the exit code
      when the command line does not parse *)
  flag_Parse : (string * bool) + Z;
  (** whether an interrupt signal ever arrives *)
  interrupted : bool
}.

(** ** main.go *)

Section Orderer.

Context (P : Packages).

(** The loop of retrieveConfiguration (lines 77-99): [it] is the iterator,
    [lastConfigTx] the variable of that name. *)
Fixpoint retrieveConfiguration_loop (fuel : nat) (rl : Reader) (it : cursor rl)
    (lastConfigTx : option (ConfigurationEnvelope P))
    : Run (option (ConfigurationEnvelope P)) :=
  match fuel with
  | O => ([], Running)
  | S fuel' =>
    if ReadyChan rl it then
      let '((block, status), it') := Next rl it in
      emit (EvNext status);;
      if decide (status ≠ Status_SUCCESS) then
        panic (PanicParsingBlockchain status)
      else
        match block with
        | None => panic PanicNilPointer
        | Some block =>
          if decide (length (Messages block) ≠ 1%nat) then
            retrieveConfiguration_loop fuel' rl it' lastConfigTx
          else
            match Messages block !! 0%nat with
            | None => panic PanicIndexOutOfRange
            | Some m =>
              match proto_Unmarshal P (Data m) with
              | Some maybeConfigTx =>
                retrieveConfiguration_loop fuel' rl it' (Some maybeConfigTx)
              | None =>
                retrieveConfiguration_loop fuel' rl it' lastConfigTx
              end
            end
        end
    else
      mret lastConfigTx
  end.

Definition retrieveConfiguration (fuel : nat) (rl : Reader)
    : Run (option (ConfigurationEnvelope P)) :=
  emit (EvIterator SeekInfo_OLDEST 0);;
  retrieveConfiguration_loop fuel rl (Iterator rl SeekInfo_OLDEST 0) None.

(** The loop of bootstrapConfigManager (lines 104-113), visiting the keys
    of ab.Configuration_ConfigurationType_name in the order [ctypes]; Go
    leaves the order of a range over a map open. *)
Definition configHandlerMap (policyManager : PolicyManager P) (ctypes : list Z)
    : gmap Z (Handler (PolicyManager P)) :=
  foldl (λ configHandlerMap ctype,
           let rtype := ctype in
           if decide (rtype = Configuration_Policy P) then
             <[rtype := PolicyHandler policyManager]> configHandlerMap
           else
             <[rtype := BytesHandler]> configHandlerMap)
        ∅ ctypes.

Context (X : Configtx P).

Definition bootstrapConfigManager (lastConfigTx : ConfigurationEnvelope P)
    : Run (Manager X) :=
  emit (EvNewManagerImpl (as_CryptoHelper XxxCryptoHelper));;
  let policyManager := policies_NewManagerImpl P (as_CryptoHelper XxxCryptoHelper) in
  let configHandlerMap :=
    configHandlerMap policyManager
      (map_to_list (Configuration_ConfigurationType_name P)).*1 in
  emit EvNewConfigurationManager;;
  match NewConfigurationManager X lastConfigTx policyManager configHandlerMap with
  | inr err => panic (PanicConfigurationManager err)
  | inl configManager => mret configManager
  end.

Context (H : Host).

(** Lines 147-166 of launchSolo: the choice of the ledger. *)
Definition launchSolo_rawledger (conf : config.TopLevel) (genesisBlock : Block)
    : Run Reader :=
  emit (EvGetenv "ORDERER_LEDGER_TYPE");;
  let ledgerType := os_Getenv H "ORDERER_LEDGER_TYPE" in
  if decide (ledgerType = "file") then
    location ←
      (let location := config.Location (config.fileLedger conf) in
       if decide (location = "") then
         emit (EvTempDir (config.Prefix (config.fileLedger conf)));;
         match ioutil_TempDir H "" (config.Prefix (config.fileLedger conf)) with
         | inr err => panic (PanicTempDir err)
         | inl location => mret location
         end
       else mret location);
    emit (EvFileLedgerNew location genesisBlock);;
    mret (fileledger_New P location genesisBlock)
  else
    let historySize := int (config.HistorySize (config.ramLedger conf)) in
    emit (EvRamLedgerNew historySize genesisBlock);;
    mret (ramledger_New P historySize genesisBlock).

(** The last call, grpcServer.Serve, blocks while the server runs; the run
    is written as far as the return of Serve, after which launchSolo
    returns. *)
Definition launchSolo (fuel : nat) (conf : config.TopLevel) : Run unit :=
  emit EvGrpcNewServer;;
  let address :=
    Sprintf_address (config.ListenAddress (config.general conf))
                    (config.ListenPort (config.general conf)) in
  emit (EvListen address);;
  match net_Listen H address with
  | inr err => emit (EvPrintln ("Failed to listen: " +:+ err))
  | inl lis =>
    (if decide (config.GenesisMethod (config.general conf) = "static") then
       emit EvStaticNew
     else
       panic (PanicUnknownGenesisMethod (config.GenesisMethod (config.general conf))));;
    emit EvGenesisBlock;;
    match static_GenesisBlock P with
    | inr err => panic (PanicGenesisBlock err)
    | inl genesisBlock =>
      rawledger ← launchSolo_rawledger conf genesisBlock;
      lastConfigTx ← retrieveConfiguration fuel rawledger;
      match lastConfigTx with
      | None => panic PanicNoChainConfiguration
      | Some lastConfigTx =>
        configManager ← bootstrapConfigManager lastConfigTx;
        (* _ = configManager *)
        emit (EvSoloNew
                {| solo_queueSize := int (config.QueueSize (config.general conf));
                   solo_batchSize := int (config.BatchSize (config.general conf));
                   solo_maxWindowSize := int (config.MaxWindowSize (config.general conf));
                   solo_batchTimeout := config.BatchTimeout (config.general conf);
                   solo_rl := rawledger |});;
        emit (EvServe lis)
      end
    end
  end.

Definition launchKafka (conf : config.TopLevel) : Run unit :=
  let kafkaVersion := sarama_V0_9_0_1 in
  let conf :=
    {| config.general := config.general conf;
       config.ramLedger := config.ramLedger conf;
       config.fileLedger := config.fileLedger conf;
       config.kafka := {| config.Brokers := config.Brokers (config.kafka conf);
                          config.Version := kafkaVersion |} |} in
  emit EvFlagParse;;
  match flag_Parse H with
  | inr code => ([], Exited code)
  | inl (loglevel, verbose) =>
    emit (EvKafkaSetLogLevel loglevel);;
    (if verbose : bool then emit EvSaramaLogger else mret tt);;
    emit (EvKafkaNew conf);;
    defer EvKafkaTeardown
      (let address :=
         Sprintf_address (config.ListenAddress (config.general conf))
                         (config.ListenPort (config.general conf)) in
       emit (EvListen address);;
       match net_Listen H address with
       | inr err => panic (PanicListen err)
       | inl lis =>
         emit EvGrpcNewServer;;
         emit EvRegisterAtomicBroadcastServer;;
         emit (EvGoServe lis);;
         emit EvSignalNotify;;
         if interrupted H then emit (EvPrintln "Server shutting down")
         else ([], Running)
       end)
  end.

(** [main], after [conf := config.Load()]. *)
Definition main (fuel : nat) (conf : config.TopLevel) : Run unit :=
  let ordererType := config.OrdererType (config.general conf) in
  if decide (ordererType = "solo") then launchSolo fuel conf
  else if decide (ordererType = "kafka") then launchKafka conf
  else panic PanicInvalidOrdererType.

End Orderer.

(** ** What the specification says of the bootstrap scan *)

Section ScanSpec.

Context (P : Packages).

(** Section 4.5: a configuration transaction occupies a block by itself;
    a block is a configuration block when it holds exactly one message
    and that message is a ConfigurationEnvelope. *)
Definition configurationOfBlock (b : Block) : option (ConfigurationEnvelope P) :=
  match Messages b with
  | [m] => proto_Unmarshal P (Data m)
  | _ => None
  end.

(** Section 4.5: the last configuration encountered from OLDEST forward. *)
Definition lastConfiguration (chain : list Block) : option (ConfigurationEnvelope P) :=
  last (omap configurationOfBlock chain).

End ScanSpec.

(** The blocks a cursor hands out before its ready signal is first
    unavailable: each poll finds it ready and Next succeeds with a block,
    until a poll finds it not ready. *)
Inductive yields (rl : Reader) : cursor rl → list Block → Prop :=
| yields_done it :
    ReadyChan rl it = false → yields rl it []
| yields_next it it' b chain :
    ReadyChan rl it = true →
    Next rl it = ((Some b, Status_SUCCESS), it') →
    yields rl it' chain →
    yields rl it (b :: chain).

(** The cursor after [n] calls of Next. *)
Fixpoint advance (rl : Reader) (n : nat) (it : cursor rl) : cursor rl :=
  match n with
  | O => it
  | S n' => advance rl n' (Next rl it).2
  end.

Definition is_Next (e : Event) : bool :=
  match e with EvNext _ => true | _ => false end.

(** How many times a run called Next. *)
Definition Next_calls (t : list Event) : nat := length (List.filter is_Next t).

(** Section 4.5: the Policy type goes to the policy-management handler,
    every other configuration type to the pass-through bytes handler. *)
Definition handlerOf (P : Packages) (policyManager : PolicyManager P) (rtype : Z)
    : Handler (PolicyManager P) :=
  if decide (rtype = Configuration_Policy P) then PolicyHandler policyManager
  else BytesHandler.

(** The process starts serving when it calls Serve on a gRPC server. *)
Definition is_serve (e : Event) : bool :=
  match e with
  | EvServe _ | EvGoServe _ => true
  | _ => false
  end.

Definition serves (t : list Event) : bool := existsb is_serve t.

(** The steps of the bootstrap sequence: retrieving the genesis block,
    scanning the ledger, building the policy manager and the configuration
    manager. *)
Definition is_bootstrap (e : Event) : bool :=
  match e with
  | EvGenesisBlock | EvIterator _ _ | EvNext _
  | EvNewManagerImpl _ | EvNewConfigurationManager => true
  | _ => false
  end.

Definition bootstraps (t : list Event) : bool := existsb is_bootstrap t.

(** What a run handed to solo.New: everything the broadcast and deliver
    servers of the solo orderer are built from. *)
Definition solo_pipeline (t : list Event) : list SoloArgs :=
  omap (λ e, match e with EvSoloNew args => Some args | _ => None end) t.

(** ** Examples: a ledger, packages and a host to run the code on *)

Module Fixture.

(** A stand-in for proto.Unmarshal into a ConfigurationEnvelope, for the
    examples only: the bytes parse when they start with the tag byte 0x0a
    (field 1, length-delimited), and the envelope is what follows.  It
    only tells the example messages apart and does not follow the wire
    format; the theorems take the parser as a parameter, and the examples
    that depend on what the library accepts run on [Wire.unmarshal]
    instead. *)
Definition unmarshal (data : bytes) : option bytes :=
  match data with
  | x0a :: items => Some items
  | _ => None
  end.

Definition genesis : Block :=
  {| PrevHash := []; Messages := [ {| Data := [x0a; x01] |} ] |}.

Definition envelopeOf (items : bytes) : BroadcastMessage := {| Data := x0a :: items |}.
Definition txMessage (n : Byte.byte) : BroadcastMessage := {| Data := [xff; n] |}.

Definition block (ms : list BroadcastMessage) : Block :=
  {| PrevHash := []; Messages := ms |}.

Definition configA : bytes := [x41].
Definition configB : bytes := [x42].

(** [tx, tx, configA, tx, configB, tx] *)
Definition chain1 : list Block :=
  [ block [txMessage x01]; block [txMessage x02]; block [envelopeOf configA];
    block [txMessage x03]; block [envelopeOf configB]; block [txMessage x04] ].

(** a single block holding [configA, tx] together *)
Definition chain2 : list Block :=
  [ block [envelopeOf configA; txMessage x01] ].

(** a chain whose only single-message block does not parse *)
Definition chain3 : list Block := [ block [txMessage x01] ].

(** a reader whose first Next fails *)
Definition brokenLedger : Reader := {|
  cursor := nat;
  Iterator _ _ := 0%nat;
  ReadyChan i := bool_decide (i < 1)%nat;
  Next i := ((None, Status_SERVICE_UNAVAILABLE), S i)
|}.

(** ConfigurationType: Policy and one other declared type. *)
Definition ctypes : gmap Z string := {[ 0 := "Policy"; 1 := "ChannelParameters" ]}.

(** A fresh RAM ledger holds the genesis block; the file ledger holds
    the genesis block followed by the blocks [stored] at its location. *)
Definition ramOf (genesisBlock : Block) : Reader := quiescentLedger [genesisBlock].
Definition fileOf (stored : list Block) (genesisBlock : Block) : Reader :=
  quiescentLedger (genesisBlock :: stored).

Definition packages (genesisBlock : Block + error) (ram file : Block → Reader)
    : Packages := {|
  ConfigurationEnvelope := bytes;
  proto_Unmarshal := unmarshal;
  Configuration_ConfigurationType_name := ctypes;
  Configuration_Policy := 0;
  PolicyManager := CryptoHelperValue;
  policies_NewManagerImpl h := h;
  static_GenesisBlock := genesisBlock;
  fileledger_New _ genesisBlock := file genesisBlock;
  ramledger_New _ genesisBlock := ram genesisBlock
|}.

(** Modelled from the spec: the configuration manager is in the configtx
    package, which main.go only imports.  Sections 4.5 and 4.6: it holds
    the policy set against which a submitted envelope is authorized; here
    the manager is that verdict. *)
Definition configtx (P : Packages) (verdict : bytes → bool) : Configtx P := {|
  Manager := bytes → bool;
  NewConfigurationManager _ _ _ := inl verdict
|}.

Definition allowAll : bytes → bool := λ _, true.
Definition denyAll : bytes → bool := λ _, false.

Definition host (ledgerType : string) : Host := {|
  net_Listen address := inl {| listen_address := address |};
  os_Getenv key := if decide (key = "ORDERER_LEDGER_TYPE") then ledgerType else "";
  ioutil_TempDir _ prefix := inl ("/tmp/" +:+ prefix);
  flag_Parse := inl ("info", false);
  interrupted := false
|}.

Definition conf (ordererType : string) : config.TopLevel := {|
  config.general := {|
    config.OrdererType := ordererType;
    config.ListenAddress := "127.0.0.1";
    config.ListenPort := 5151;
    config.GenesisMethod := "static";
    config.QueueSize := 1000;
    config.BatchSize := 10;
    config.MaxWindowSize := 1000;
    config.BatchTimeout := 10
  |};
  config.ramLedger := {| config.HistorySize := 10000 |};
  config.fileLedger := {| config.Location := ""; config.Prefix := "hyperledger" |};
  config.kafka := {| config.Brokers := ["127.0.0.1:9092"]; config.Version := [] |}
|}.

Definition P1 : Packages := packages (inl genesis) ramOf (fileOf chain1).

(** no genesis block *)
Definition P2 : Packages := packages (inr "no genesis block") ramOf (fileOf chain1).

(** a RAM ledger whose Next fails *)
Definition P3 : Packages := packages (inl genesis) (λ _, brokenLedger) (fileOf chain1).

(** a genesis block that is no configuration *)
Definition P4 : Packages :=
  packages (inl (block [txMessage x00])) ramOf (fileOf chain1).

(** an envelope submitted to Broadcast *)
Definition submitted : bytes := [xff; x07].

End Fixture.

(** ** More of the scan: a cursor that fails *)

(** The blocks a cursor hands out before a Next fails: each poll finds the
    signal ready, Next succeeds with the blocks of [chain] in turn, and the
    Next after them returns [status], which is not SUCCESS. *)
Inductive fails_after (rl : Reader) : cursor rl → list Block → Status → Prop :=
| fails_now it it' block status :
    ReadyChan rl it = true →
    Next rl it = ((block, status), it') →
    status ≠ Status_SUCCESS →
    fails_after rl it [] status
| fails_later it it' b chain status :
    ReadyChan rl it = true →
    Next rl it = ((Some b, Status_SUCCESS), it') →
    fails_after rl it' chain status →
    fails_after rl it (b :: chain) status.

(** A ledger for the examples that hands out [chain] and whose next Next
    returns [status] with no block. *)
Definition failingLedger (chain : list Block) (status : Status) : Reader := {|
  cursor := nat;
  Iterator _ _ := 0%nat;
  ReadyChan i := bool_decide (i ≤ length chain)%nat;
  Next i :=
    match chain !! i with
    | Some b => ((Some b, Status_SUCCESS), S i)
    | None => ((None, status), S i)
    end
|}.

(** ** More of the startup: what a run touches *)


(** The calls of launchKafka that launchSolo has no counterpart for. *)
Definition is_kafka_only (e : Event) : bool :=
  match e with
  | EvFlagParse | EvKafkaSetLogLevel _ | EvSaramaLogger | EvKafkaNew _
  | EvKafkaTeardown | EvRegisterAtomicBroadcastServer | EvGoServe _
  | EvSignalNotify => true
  | _ => false
  end.

(** The panics the scan raises: a failed Next, and the two run-time panics
    of Go on a nil block and on an index out of range. *)
Definition is_scan_panic (p : PanicValue) : bool :=
  match p with
  | PanicParsingBlockchain _ | PanicNilPointer | PanicIndexOutOfRange => true
  | _ => false
  end.


(** [conf.Kafka.Version = v], every other field as it was. *)
Definition withKafkaVersion (conf : config.TopLevel) (v : list Z) : config.TopLevel :=
  {| config.general := config.general conf;
     config.ramLedger := config.ramLedger conf;
     config.fileLedger := config.fileLedger conf;
     config.kafka := {| config.Brokers := config.Brokers (config.kafka conf);
                        config.Version := v |} |}.

(** The configurations a run handed to kafka.New. *)
Definition kafka_New_calls (t : list Event) : list config.TopLevel :=
  omap (λ e, match e with EvKafkaNew conf => Some conf | _ => None end) t.

(** ** Examples of startups that fail *)

Module Failing.

(** A host on which the listener opens or not, the temporary directory can
    be made or not, with the given ledger type in the environment, flags
    and interrupt. *)
Definition host (listens : bool) (ledgerType : string) (tempDir : bool)
    (flags : (string * bool) + Z) (interrupt : bool) : Host := {|
  net_Listen address :=
    if listens then inl {| listen_address := address |}
    else inr "bind: address already in use";
  os_Getenv key := if decide (key = "ORDERER_LEDGER_TYPE") then ledgerType else "";
  ioutil_TempDir _ prefix :=
    if tempDir then inl ("/tmp/" +:+ prefix) else inr "mkdir: permission denied";
  flag_Parse := flags;
  interrupted := interrupt
|}.

(** The example configuration with another genesis method. *)
Definition conf (genesisMethod : string) : config.TopLevel := {|
  config.general := {|
    config.OrdererType := "solo";
    config.ListenAddress := "127.0.0.1";
    config.ListenPort := 5151;
    config.GenesisMethod := genesisMethod;
    config.QueueSize := 1000;
    config.BatchSize := 10;
    config.MaxWindowSize := 1000;
    config.BatchTimeout := 10
  |};
  config.ramLedger := {| config.HistorySize := 10000 |};
  config.fileLedger := {| config.Location := ""; config.Prefix := "hyperledger" |};
  config.kafka := {| config.Brokers := ["127.0.0.1:9092"]; config.Version := [0; 8; 2; 2] |}
|}.

(** A configtx package whose NewConfigurationManager rejects every
    configuration. *)
Definition configtx (P : Packages) (err : error) : Configtx P := {|
  Manager := unit;
  NewConfigurationManager _ _ _ := inr err
|}.

End Failing.

(** ** The protobuf wire format *)

(** A stand-in for proto.Unmarshal that follows the wire format: a message
    is a sequence of fields, each a base-128 varint key (the field number
    times 8 plus the wire type) followed by a value whose extent the wire
    type gives: 0 a varint, 1 eight bytes, 2 a varint length and that many
    bytes, 5 four bytes.  The fields are kept as they are read, since the
    declaration of ConfigurationEnvelope is not part of main.go.  It agrees
    with the library on the empty input, which every message type accepts
    as the message with all fields at their defaults, and on input that
    ends inside a field or carries field number 0 or an unused wire type,
    which every message type rejects.  Groups (wire types 3 and 4) are not
    read. *)
Module Wire.

Inductive Value :=
| Varint (n : N)
| Fixed64 (bs : bytes)
| LengthDelimited (bs : bytes)
| Fixed32 (bs : bytes).

Definition Field : Type := N * Value.

Fixpoint varint (fuel : nat) (data : bytes) : option (N * bytes) :=
  match fuel, data with
  | S fuel', b :: rest =>
    let n := Byte.to_N b in
    if (n <? 128)%N then Some (n, rest)
    else
      match varint fuel' rest with
      | Some (hi, rest') => Some ((n - 128 + 128 * hi)%N, rest')
      | None => None
      end
  | _, _ => None
  end.

(** A varint of at most ten bytes, kept to 64 bits. *)
Definition uvarint (data : bytes) : option (N * bytes) :=
  match varint 10 data with
  | Some (n, rest) => Some ((n mod 2 ^ 64)%N, rest)
  | None => None
  end.

Definition split_at (n : N) (data : bytes) : option (bytes * bytes) :=
  if (n <=? N.of_nat (length data))%N
  then Some (take (N.to_nat n) data, drop (N.to_nat n) data)
  else None.

Definition value (wireType : N) (data : bytes) : option (Value * bytes) :=
  match wireType with
  | 0%N =>
    match uvarint data with
    | Some (n, rest) => Some (Varint n, rest)
    | None => None
    end
  | 1%N =>
    match split_at 8 data with
    | Some (bs, rest) => Some (Fixed64 bs, rest)
    | None => None
    end
  | 2%N =>
    match uvarint data with
    | Some (len, rest) =>
      match split_at len rest with
      | Some (bs, rest') => Some (LengthDelimited bs, rest')
      | None => None
      end
    | None => None
    end
  | 5%N =>
    match split_at 4 data with
    | Some (bs, rest) => Some (Fixed32 bs, rest)
    | None => None
    end
  | _ => None
  end.

Fixpoint fields (fuel : nat) (data : bytes) : option (list Field) :=
  match fuel with
  | O => None
  | S fuel' =>
    match data with
    | [] => Some []
    | _ =>
      match uvarint data with
      | None => None
      | Some (key, rest) =>
        if (key / 8 =? 0)%N then None
        else
          match value (key mod 8)%N rest with
          | None => None
          | Some (v, rest') =>
            match fields fuel' rest' with
            | None => None
            | Some fs => Some (((key / 8)%N, v) :: fs)
            end
          end
      end
    end
  end.

(** Every field takes at least one byte, so this fuel reaches the end. *)
Definition unmarshal (data : bytes) : option (list Field) :=
  fields (S (length data)) data.

End Wire.

(** ** Examples on encoded messages *)

Module Encoded.

(** A genesis block with one message: the encoding of a
    ConfigurationEnvelope whose fields are all at their defaults, which is
    the empty byte string. *)
Definition genesis : Block :=
  {| PrevHash := []; Messages := [ {| Data := [] |} ] |}.

(** The packages of the examples with the wire-format reader for
    proto.Unmarshal and this genesis block. *)
Definition packages : Packages := {|
  ConfigurationEnvelope := list Wire.Field;
  proto_Unmarshal := Wire.unmarshal;
  Configuration_ConfigurationType_name := Fixture.ctypes;
  Configuration_Policy := 0;
  PolicyManager := CryptoHelperValue;
  policies_NewManagerImpl h := h;
  static_GenesisBlock := inl genesis;
  fileledger_New _ genesisBlock := Fixture.fileOf [] genesisBlock;
  ramledger_New _ genesisBlock := Fixture.ramOf genesisBlock
|}.

(** A configtx package whose manager is the handler map it was built
    with, to look at what bootstrapConfigManager passes. *)
Definition probe (P : Packages) : Configtx P := {|
  Manager := gmap Z (Handler (PolicyManager P));
  NewConfigurationManager _ _ configHandlerMap := inl configHandlerMap
|}.

End Encoded.

(** ** The messages of fabric_next.proto *)

Module Schema.

(** The type of a field.  [Timestamp_] is google.protobuf.Timestamp, which
    the file imports; [enum_] names an enum nested in the same message,
    [message_] a message of the file. *)
Inductive FieldType :=
| bytes_
| string_
| int32_
| Timestamp_
| enum_ (name : string)
| message_ (name : string).

(** A field as written: [repeated] is the label, [NDD] records that the
    field's comment carries the acronym NDD. *)
Record Field := {
  fname : string;
  fnumber : Z;
  ftype : FieldType;
  repeated : bool;
  NDD : bool
}.

Record Enum := { ename : string; evalues : list (string * Z) }.

Record Message := {
  mname : string;
  menums : list Enum;
  mfields : list Field
}.

Record Rpc := { rname : string; rinput : string; routput : string }.

Definition field (name : string) (number : Z) (type : FieldType) : Field :=
  {| fname := name; fnumber := number; ftype := type; repeated := false; NDD := false |}.

Definition Envelope : Message := {|
  mname := "Envelope";
  menums := [];
  mfields := [ field "signature" 1 bytes_; field "message" 2 (message_ "Message2") ]
|}.

Definition Message2 : Message := {|
  mname := "Message2";
  menums := [ {| ename := "Type";
                 evalues := [ ("UNDEFINED", 0); ("DISCOVERY", 1); ("SYNC", 2);
                              ("PROPOSAL", 3); ("PROPOSAL_SET", 4);
                              ("PROPOSAL_RESULT", 5); ("PROPOSAL_SET_RESULT", 6);
                              ("TRANSACTION", 7) ] |} ];
  mfields := [ field "type" 1 (enum_ "Type"); field "version" 2 int32_;
               field "timestamp" 3 Timestamp_; field "payload" 4 bytes_ ]
|}.

Definition Proposal : Message := {|
  mname := "Proposal";
  menums := [ {| ename := "Type"; evalues := [ ("UNDEFINED", 0); ("CHAINCODE", 1) ] |} ];
  mfields := [ field "type" 1 (enum_ "Type"); field "id" 2 string_;
               field "payload" 3 bytes_ ]
|}.

Definition Response2 : Message := {|
  mname := "Response2";
  menums := [];
  mfields := [ field "status" 1 int32_; field "message" 2 string_;
               field "payload" 3 bytes_ ]
|}.

Definition SystemChaincode : Message := {|
  mname := "SystemChaincode";
  menums := [];
  mfields := [ field "id" 1 string_ ]
|}.

Definition Action : Message := {|
  mname := "Action";
  menums := [];
  mfields := [ {| fname := "proposalHash"; fnumber := 1; ftype := bytes_;
                  repeated := false; NDD := true |};
               field "simulationResult" 2 bytes_;
               {| fname := "events"; fnumber := 3; ftype := bytes_;
                  repeated := true; NDD := false |};
               field "escc" 4 (message_ "SystemChaincode");
               field "vscc" 5 (message_ "SystemChaincode") ]
|}.

Definition Endorsement : Message := {|
  mname := "Endorsement";
  menums := [];
  mfields := [ field "signature" 1 bytes_ ]
|}.

Definition ProposalResponse : Message := {|
  mname := "ProposalResponse";
  menums := [];
  mfields := [ field "response" 1 (message_ "Response2");
               {| fname := "actionBytes"; fnumber := 2; ftype := bytes_;
                  repeated := false; NDD := true |};
               field "endorsement" 3 (message_ "Endorsement") ]
|}.

Definition EndorsedAction : Message := {|
  mname := "EndorsedAction";
  menums := [];
  mfields := [ {| fname := "actionBytes"; fnumber := 1; ftype := bytes_;
                  repeated := false; NDD := true |};
               {| fname := "endorsements"; fnumber := 2; ftype := message_ "Endorsement";
                  repeated := true; NDD := false |};
               field "proposalBytes" 3 bytes_ ]
|}.

Definition Transaction2 : Message := {|
  mname := "Transaction2";
  menums := [];
  mfields := [ {| fname := "endorsedActions"; fnumber := 1;
                  ftype := message_ "EndorsedAction"; repeated := true; NDD := false |} ]
|}.

Definition InvalidTransaction : Message := {|
  mname := "InvalidTransaction";
  menums := [ {| ename := "Cause";
                 evalues := [ ("TxIdAlreadyExists", 0); ("RWConflictDuringCommit", 1) ] |} ];
  mfields := [ field "transaction" 1 (message_ "Transaction2");
               field "cause" 2 (enum_ "Cause") ]
|}.

Definition Block2 : Message := {|
  mname := "Block2";
  menums := [];
  mfields := [ field "PreviousBlockHash" 1 bytes_;
               {| fname := "Transactions"; fnumber := 2; ftype := bytes_;
                  repeated := true; NDD := false |} ]
|}.

(** The messages of the file, in the order they are declared. *)
Definition messages : list Message :=
  [ Envelope; Message2; Proposal; Response2; SystemChaincode; Action; Endorsement;
    ProposalResponse; EndorsedAction; Transaction2; InvalidTransaction; Block2 ].

(** [service Endorser] *)
Definition Endorser : list Rpc :=
  [ {| rname := "ProcessProposal"; rinput := "Proposal"; routput := "ProposalResponse" |} ].

Definition lookupMessage (name : string) : option Message :=
  List.find (λ m, bool_decide (mname m = name)) messages.

(** The two directions of an enum's table. *)
Definition enum_value (e : Enum) (name : string) : option Z :=
  snd <$> List.find (λ v, bool_decide (v.1 = name)) (evalues e).

Definition enum_name (e : Enum) (number : Z) : option string :=
  fst <$> List.find (λ v, bool_decide (v.2 = number)) (evalues e).

(** A field's type is declared: an enum nested in the field's own message,
    a message of the file, the imported timestamp, or a scalar. *)
Definition resolves (m : Message) (f : Field) : bool :=
  match ftype f with
  | enum_ name => bool_decide (name ∈ ename <$> menums m)
  | message_ name => bool_decide (name ∈ mname <$> messages)
  | _ => true
  end.

(** The messages a message embeds in its fields. *)
Definition embedded (m : Message) : list string :=
  omap (λ f, match ftype f with message_ name => Some name | _ => None end) (mfields m).

(** How deep message values nest below a message of this name; [None] when
    the fuel does not reach the bottom. *)
Fixpoint depth (fuel : nat) (name : string) : option nat :=
  match fuel with
  | O => None
  | S fuel' =>
    match lookupMessage name with
    | None => None
    | Some m =>
      foldr (λ inner acc,
               d ← depth fuel' inner; a ← acc; Some (max (S d) a))
            (Some 0%nat) (embedded m)
    end
  end.

End Schema.

(** ** The run monad *)

Lemma emit_bind {A} (e : Event) (k : Run A) :
  (emit e;; k) = (e :: trace k, result k).
Proof. by destruct k. Qed.

(** ** The bootstrap scan *)

Section Scan.

Context (P : Packages).

Lemma loop_not_ready fuel rl it lastConfigTx :
  ReadyChan rl it = false →
  retrieveConfiguration_loop P (S fuel) rl it lastConfigTx = ([], Done lastConfigTx).
Proof. intros Hr. cbn [retrieveConfiguration_loop]. by rewrite Hr. Qed.

(** One turn of the loop on a block that Next hands out with SUCCESS. *)
Lemma loop_block fuel rl it it' b lastConfigTx :
  ReadyChan rl it = true →
  Next rl it = ((Some b, Status_SUCCESS), it') →
  retrieveConfiguration_loop P (S fuel) rl it lastConfigTx
  = (emit (EvNext Status_SUCCESS);;
     retrieveConfiguration_loop P fuel rl it'
       (match configurationOfBlock P b with
        | Some c => Some c
        | None => lastConfigTx
        end)).
Proof.
  intros Hr Hn. cbn [retrieveConfiguration_loop]. rewrite Hr, Hn.
  f_equal. unfold configurationOfBlock.
  destruct (decide (Status_SUCCESS ≠ Status_SUCCESS)) as [|_]; [done|].
  destruct (Messages b) as [|m [|m' ms]]; simpl; try done.
  by destruct (proto_Unmarshal P (Data m)).
Qed.

Lemma last_omap_cons b chain (lastConfigTx : option (ConfigurationEnvelope P)) :
  match lastConfiguration P (b :: chain) with
  | Some c => Some c
  | None => lastConfigTx
  end
  = match lastConfiguration P chain with
    | Some c => Some c
    | None => match configurationOfBlock P b with
              | Some c => Some c
              | None => lastConfigTx
              end
    end.
Proof.
  unfold lastConfiguration.
  change (omap (configurationOfBlock P) (b :: chain))
    with (match configurationOfBlock P b with
          | Some c => c :: omap (configurationOfBlock P) chain
          | None => omap (configurationOfBlock P) chain
          end).
  generalize (omap (configurationOfBlock P) chain). intros l.
  destruct (configurationOfBlock P b) as [c|]; [|done].
  destruct l as [|c' l]; [done|].
  change (last (c :: c' :: l)) with (last (c' :: l)).
  destruct (last (c' :: l)) eqn:E'; [done|].
  by apply last_None in E'.
Qed.

(** The loop on a cursor that yields [chain]: one Next per block, and the
    variable ends as the last configuration of the chain, or unchanged
    when the chain has none. *)
Lemma loop_yields rl it chain :
  yields rl it chain →
  ∀ fuel lastConfigTx, (length chain < fuel)%nat →
  retrieveConfiguration_loop P fuel rl it lastConfigTx
  = (replicate (length chain) (EvNext Status_SUCCESS),
     Done (match lastConfiguration P chain with
           | Some c => Some c
           | None => lastConfigTx
           end)).
Proof.
  induction 1 as [it Hr | it it' b chain Hr Hn _ IH]; intros fuel lastConfigTx Hf.
  - destruct fuel as [|fuel]; [simpl in Hf; lia|].
    by rewrite loop_not_ready.
  - destruct fuel as [|fuel]; [simpl in Hf; lia|].
    rewrite (loop_block _ _ _ _ _ _ Hr Hn), emit_bind.
    rewrite IH by (simpl in Hf; lia). simpl.
    by rewrite last_omap_cons.
Qed.

Lemma retrieveConfiguration_yields rl chain fuel :
  yields rl (Iterator rl SeekInfo_OLDEST 0) chain →
  (length chain < fuel)%nat →
  retrieveConfiguration P fuel rl
  = (EvIterator SeekInfo_OLDEST 0 :: replicate (length chain) (EvNext Status_SUCCESS),
     Done (lastConfiguration P chain)).
Proof.
  intros Hy Hf. unfold retrieveConfiguration.
  rewrite emit_bind, (loop_yields _ _ _ Hy) by done. simpl.
  by destruct (lastConfiguration P chain).
Qed.

(** A block that does not hold exactly one message is no configuration
    block for the specification's reading either. *)
Lemma lastConfiguration_skip pre b post :
  length (Messages b) ≠ 1%nat →
  lastConfiguration P (pre ++ b :: post) = lastConfiguration P (pre ++ post).
Proof.
  intros Hlen. unfold lastConfiguration.
  rewrite !omap_app. simpl.
  replace (configurationOfBlock P b) with (@None (ConfigurationEnvelope P)); [done|].
  unfold configurationOfBlock. by destruct (Messages b) as [|m [|m' ms]].
Qed.

End Scan.

(** The quiescent ledger yields, from index [i], the rest of its chain. *)
Lemma quiescentLedger_yields chain (i : nat) :
  yields (quiescentLedger chain) i (drop i chain).
Proof.
  remember (length chain - i)%nat as d eqn:Hd.
  revert i Hd. induction d as [|d IH]; intros i Hd.
  - rewrite drop_ge by lia. apply yields_done. simpl.
    apply bool_decide_eq_false. lia.
  - destruct (lookup_lt_is_Some_2 chain i) as [b Hb]; [lia|].
    rewrite (drop_S _ _ _ Hb).
    eapply yields_next with (it' := S i).
    + simpl. apply bool_decide_eq_true. lia.
    + simpl. by rewrite Hb.
    + apply IH. lia.
Qed.

Lemma quiescentLedger_yields_OLDEST chain :
  yields (quiescentLedger chain) (Iterator (quiescentLedger chain) SeekInfo_OLDEST 0) chain.
Proof. apply (quiescentLedger_yields chain 0). Qed.

(** ** Runs of the scan on the example ledgers *)

Example scan_chain1 :
  retrieveConfiguration Fixture.P1 7 (quiescentLedger Fixture.chain1)
  = (EvIterator SeekInfo_OLDEST 0 :: replicate 6 (EvNext Status_SUCCESS),
     Done (Some Fixture.configB)).
Proof. vm_compute. reflexivity. Qed.

Example scan_chain2 :
  retrieveConfiguration Fixture.P1 7 (quiescentLedger Fixture.chain2)
  = ([EvIterator SeekInfo_OLDEST 0; EvNext Status_SUCCESS], Done None).
Proof. vm_compute. reflexivity. Qed.

(** C1: the bootstrap scan opens the ledger at OLDEST and, on a ledger
    whose cursor yields the blocks [chain], calls Next once per block and
    returns the last configuration of the chain (last one wins); a block
    that does not hold exactly one message changes nothing: scanning the
    chain without it gives the same result. *)
Theorem retrieveConfiguration_last_configuration_wins
    (P : Packages) (rl : Reader) (chain : list Block) (fuel : nat) :
  yields rl (Iterator rl SeekInfo_OLDEST 0) chain →
  (length chain < fuel)%nat →
  retrieveConfiguration P fuel rl
  = (EvIterator SeekInfo_OLDEST 0 :: replicate (length chain) (EvNext Status_SUCCESS),
     Done (lastConfiguration P chain))
  ∧ ∀ pre b post rl',
      chain = pre ++ b :: post →
      length (Messages b) ≠ 1%nat →
      yields rl' (Iterator rl' SeekInfo_OLDEST 0) (pre ++ post) →
      result (retrieveConfiguration P fuel rl') = result (retrieveConfiguration P fuel rl).
Proof.
  intros Hy Hf. split; [by apply retrieveConfiguration_yields|].
  intros pre b post rl' -> Hlen Hy'.
  rewrite (retrieveConfiguration_yields P rl _ fuel Hy Hf).
  rewrite (retrieveConfiguration_yields P rl' _ fuel Hy').
  - simpl. by rewrite lastConfiguration_skip.
  - rewrite length_app in *. simpl in Hf. lia.
Qed.

(** The ledger [tx, tx, configA, tx, configB, tx] gives configB; the ledger
    whose one block holds [configA, tx] gives no configuration. *)
Lemma retrieveConfiguration_last_configuration_wins_witness :
  retrieveConfiguration Fixture.P1 7 (quiescentLedger Fixture.chain1)
  = (EvIterator SeekInfo_OLDEST 0 :: replicate 6 (EvNext Status_SUCCESS),
     Done (Some Fixture.configB))
  ∧ result (retrieveConfiguration Fixture.P1 7 (quiescentLedger Fixture.chain2)) = Done None.
Proof.
  split.
  - apply (retrieveConfiguration_last_configuration_wins Fixture.P1
             (quiescentLedger Fixture.chain1) Fixture.chain1 7).
    + apply quiescentLedger_yields_OLDEST.
    + simpl. lia.
  - destruct (retrieveConfiguration_last_configuration_wins Fixture.P1
                (quiescentLedger Fixture.chain2) Fixture.chain2 7) as [_ Hskip].
    + apply quiescentLedger_yields_OLDEST.
    + simpl. lia.
    + rewrite <- (Hskip [] (Fixture.block [Fixture.envelopeOf Fixture.configA;
                                            Fixture.txMessage x01]) [] (quiescentLedger [])).
      * reflexivity.
      * reflexivity.
      * simpl. lia.
      * apply quiescentLedger_yields_OLDEST.
Defined.

Section Termination.

Context (P : Packages).

Lemma loop_terminates rl n :
  ∀ it fuel lastConfigTx,
    ReadyChan rl (advance rl n it) = false →
    (n < fuel)%nat →
    result (retrieveConfiguration_loop P fuel rl it lastConfigTx) ≠ Running
    ∧ (Next_calls (trace (retrieveConfiguration_loop P fuel rl it lastConfigTx)) ≤ n)%nat.
Proof.
  induction n as [|n IH]; intros it fuel lastConfigTx Hr Hf.
  - destruct fuel as [|fuel]; [lia|].
    simpl in Hr. rewrite loop_not_ready by done. split; [done|reflexivity].
  - destruct fuel as [|fuel]; [lia|].
    destruct (ReadyChan rl it) eqn:Hit.
    2:{ rewrite loop_not_ready by done. split; [done|]. unfold Next_calls. simpl. lia. }
    cbn [retrieveConfiguration_loop advance] in *. rewrite Hit.
    destruct (Next rl it) as [[block status] it'] eqn:Hn.
    simpl in Hr.
    assert (Hrec : ∀ l,
      result (emit (EvNext status);; retrieveConfiguration_loop P fuel rl it' l) ≠ Running
      ∧ (Next_calls (trace (emit (EvNext status);;
                            retrieveConfiguration_loop P fuel rl it' l)) ≤ S n)%nat).
    { intros l. rewrite emit_bind.
      destruct (IH it' fuel l Hr ltac:(lia)) as [H1 H2].
      split; [done|]. unfold Next_calls in *. simpl. lia. }
    rewrite emit_bind.
    destruct (decide (status ≠ Status_SUCCESS)).
    { simpl. split; [done|]. unfold Next_calls. simpl. lia. }
    destruct block as [block|].
    2:{ simpl. split; [done|]. unfold Next_calls. simpl. lia. }
    rewrite <- emit_bind.
    destruct (decide (length (Messages block) ≠ 1%nat)); [apply Hrec|].
    destruct (Messages block !! 0%nat) as [m|].
    2:{ rewrite emit_bind. simpl. split; [done|]. unfold Next_calls. simpl. lia. }
    destruct (proto_Unmarshal P (Data m)); apply Hrec.
Qed.

End Termination.

(** C8: the bootstrap scan polls the ready signal and never waits: when
    the cursor's ready signal is not available after [n] calls of Next, the
    scan ends (it returns, or panics on a failed Next) with any fuel above
    [n], having called Next at most [n] times. *)
Theorem retrieveConfiguration_terminates
    (P : Packages) (rl : Reader) (n fuel : nat) :
  ReadyChan rl (advance rl n (Iterator rl SeekInfo_OLDEST 0)) = false →
  (n < fuel)%nat →
  result (retrieveConfiguration P fuel rl) ≠ Running
  ∧ (Next_calls (trace (retrieveConfiguration P fuel rl)) ≤ n)%nat.
Proof.
  intros Hr Hf. unfold retrieveConfiguration. rewrite emit_bind.
  destruct (loop_terminates P rl n _ fuel None Hr Hf) as [H1 H2].
  split; [done|]. unfold Next_calls in *. simpl. done.
Qed.

(** On the six-block ledger the scan ends after at most six calls. *)
Lemma retrieveConfiguration_terminates_witness :
  result (retrieveConfiguration Fixture.P1 7 (quiescentLedger Fixture.chain1)) ≠ Running
  ∧ (Next_calls (trace (retrieveConfiguration Fixture.P1 7 (quiescentLedger Fixture.chain1)))
     ≤ 6)%nat.
Proof.
  apply (retrieveConfiguration_terminates Fixture.P1 (quiescentLedger Fixture.chain1) 6 7).
  - reflexivity.
  - lia.
Defined.



(** ** The Message2 type enumeration *)

(** C7, as stated, fails: no variant of Message2.Type is called
    CONFIGURATION. *)
Lemma Message2_Type_has_no_CONFIGURATION :
  ¬ (∃ t : Message2.Type_, Message2.Type_ident t = "CONFIGURATION")
  ∧ Message2.Type_value !! "CONFIGURATION" = None.
Proof.
  split; [|by vm_compute].
  intros [t Ht]. destruct t; discriminate Ht.
Qed.

(** C7, amended: the Message2 type enumeration declares exactly UNDEFINED,
    DISCOVERY, SYNC, PROPOSAL, PROPOSAL_SET, PROPOSAL_RESULT,
    PROPOSAL_SET_RESULT and TRANSACTION, numbered 0 to 7; TRANSACTION is
    there alongside DISCOVERY, SYNC, PROPOSAL and PROPOSAL_RESULT, and
    CONFIGURATION is not. *)
Theorem Message2_Type_declared_variants :
  (∀ t : Message2.Type_, t ∈ Message2.Type_all)
  ∧ map_to_list Message2.Type_name
    ≡ₚ [ (0, "UNDEFINED"); (1, "DISCOVERY"); (2, "SYNC"); (3, "PROPOSAL");
         (4, "PROPOSAL_SET"); (5, "PROPOSAL_RESULT"); (6, "PROPOSAL_SET_RESULT");
         (7, "TRANSACTION") ]
  ∧ Message2.Type_value !! "DISCOVERY" = Some 1
  ∧ Message2.Type_value !! "SYNC" = Some 2
  ∧ Message2.Type_value !! "PROPOSAL" = Some 3
  ∧ Message2.Type_value !! "PROPOSAL_RESULT" = Some 5
  ∧ Message2.Type_value !! "TRANSACTION" = Some 7
  ∧ Message2.Type_value !! "CONFIGURATION" = None.
Proof.
  split; [|split].
  - intros t. unfold Message2.Type_all. rewrite !elem_of_cons. destruct t; tauto.
  - unfold Message2.Type_name. apply map_to_list_to_map. compute_done.
  - repeat split; by vm_compute.
Qed.

(** ** The crypto helper *)

(** C4: the helper handed to the policy manager is the stand-in, and its
    VerifySignature answers true on every message, identities and
    signatures, so its answers on any two inputs are the same. *)
Theorem xxxCryptoHelper_verifies_everything :
  (∀ (P : Packages) (X : Configtx P) (lastConfigTx : ConfigurationEnvelope P),
     head (trace (bootstrapConfigManager P X lastConfigTx))
     = Some (EvNewManagerImpl (as_CryptoHelper XxxCryptoHelper)))
  ∧ (∀ msg ids sigs : bytes,
       call_VerifySignature (as_CryptoHelper XxxCryptoHelper) msg ids sigs = true)
  ∧ (∀ msg ids sigs : bytes, VerifySignature XxxCryptoHelper msg ids sigs = true)
  ∧ (∀ msg ids sigs msg' ids' sigs' : bytes,
       VerifySignature XxxCryptoHelper msg ids sigs
       = VerifySignature XxxCryptoHelper msg' ids' sigs').
Proof.
  repeat split.
  intros P X lastConfigTx. unfold bootstrapConfigManager.
  by rewrite emit_bind.
Qed.

(** ** The configuration-handler map *)

Section HandlerMap.

Context (P : Packages) (policyManager : PolicyManager P).

Lemma configHandlerMap_fold ctypes :
  ∀ (m : gmap Z (Handler (PolicyManager P))) rtype,
    foldl (λ configHandlerMap ctype,
             if decide (ctype = Configuration_Policy P) then
               <[ctype := PolicyHandler policyManager]> configHandlerMap
             else
               <[ctype := BytesHandler]> configHandlerMap) m ctypes !! rtype
    = if decide (rtype ∈ ctypes) then Some (handlerOf P policyManager rtype) else m !! rtype.
Proof.
  induction ctypes as [|c ctypes IH]; intros m rtype.
  - destruct (decide (rtype ∈ [])) as [Hin|_]; [|done].
    by apply elem_of_nil in Hin.
  - cbn [foldl]. rewrite IH.
    destruct (decide (rtype ∈ ctypes)) as [Hin|Hnin],
             (decide (rtype ∈ c :: ctypes)) as [Hin'|Hnin']; try done.
    + exfalso. apply Hnin'. by right.
    + apply elem_of_cons in Hin' as [->|?]; [|done].
      unfold handlerOf.
      destruct (decide (c = Configuration_Policy P)); by rewrite lookup_insert_eq.
    + assert (c ≠ rtype) by (intros ->; apply Hnin'; left).
      destruct (decide (c = Configuration_Policy P)); by rewrite lookup_insert_ne.
Qed.

Lemma configHandlerMap_lookup ctypes rtype :
  ctypes ≡ₚ (map_to_list (Configuration_ConfigurationType_name P)).*1 →
  configHandlerMap P policyManager ctypes !! rtype
  = if decide (rtype ∈ dom (Configuration_ConfigurationType_name P))
    then Some (handlerOf P policyManager rtype) else None.
Proof.
  intros Hperm. unfold configHandlerMap.
  rewrite (configHandlerMap_fold ctypes ∅ rtype), lookup_empty.
  assert (Hiff : rtype ∈ ctypes ↔ rtype ∈ dom (Configuration_ConfigurationType_name P)).
  { rewrite Hperm, elem_of_dom. split.
    - intros [[k v] [-> Hkv]]%list_elem_of_fmap.
      apply elem_of_map_to_list in Hkv. by exists v.
    - intros [v Hv]. apply list_elem_of_fmap. exists (rtype, v).
      split; [done|]. by apply elem_of_map_to_list. }
  destruct (decide (rtype ∈ ctypes)), (decide (rtype ∈ dom _)); tauto || done.
Qed.

End HandlerMap.

(** What bootstrapConfigManager calls and returns. *)
Lemma bootstrapConfigManager_outcome P (X : Configtx P) lastConfigTx :
  bootstrapConfigManager P X lastConfigTx
  = ([EvNewManagerImpl (as_CryptoHelper XxxCryptoHelper); EvNewConfigurationManager],
     match NewConfigurationManager X lastConfigTx
             (policies_NewManagerImpl P (as_CryptoHelper XxxCryptoHelper))
             (configHandlerMap P (policies_NewManagerImpl P (as_CryptoHelper XxxCryptoHelper))
                (map_to_list (Configuration_ConfigurationType_name P)).*1) with
     | inl configManager => Done configManager
     | inr err => Panicked (PanicConfigurationManager err)
     end).
Proof.
  unfold bootstrapConfigManager. by destruct (NewConfigurationManager X _ _ _).
Qed.

(** C5: the handler map built at startup.  Whatever order the range over
    the declared configuration types takes, bootstrapConfigManager hands
    configtx.NewConfigurationManager the map built in that order, whose
    keys are exactly the declared types, in which the Policy type (when
    declared) is mapped to the policy manager and every other declared type
    to a bytes handler. *)
Theorem configHandlerMap_covers_declared_types
    (P : Packages) (X : Configtx P) (lastConfigTx : ConfigurationEnvelope P)
    (ctypes : list Z) :
  ctypes ≡ₚ (map_to_list (Configuration_ConfigurationType_name P)).*1 →
  bootstrapConfigManager P X lastConfigTx
  = ([EvNewManagerImpl (as_CryptoHelper XxxCryptoHelper); EvNewConfigurationManager],
     match NewConfigurationManager X lastConfigTx
             (policies_NewManagerImpl P (as_CryptoHelper XxxCryptoHelper))
             (configHandlerMap P
                (policies_NewManagerImpl P (as_CryptoHelper XxxCryptoHelper)) ctypes) with
     | inl configManager => Done configManager
     | inr err => Panicked (PanicConfigurationManager err)
     end)
  ∧ dom (configHandlerMap P
           (policies_NewManagerImpl P (as_CryptoHelper XxxCryptoHelper)) ctypes)
    = dom (Configuration_ConfigurationType_name P)
  ∧ (Configuration_Policy P ∈ dom (Configuration_ConfigurationType_name P) →
     configHandlerMap P
       (policies_NewManagerImpl P (as_CryptoHelper XxxCryptoHelper)) ctypes
       !! Configuration_Policy P
     = Some (PolicyHandler (policies_NewManagerImpl P (as_CryptoHelper XxxCryptoHelper))))
  ∧ (∀ rtype, rtype ∈ dom (Configuration_ConfigurationType_name P) →
     rtype ≠ Configuration_Policy P →
     configHandlerMap P
       (policies_NewManagerImpl P (as_CryptoHelper XxxCryptoHelper)) ctypes !! rtype
     = Some BytesHandler).
Proof.
  intros Hperm.
  set (policyManager := policies_NewManagerImpl P (as_CryptoHelper XxxCryptoHelper)).
  split; [|split; [|split]].
  - rewrite bootstrapConfigManager_outcome. fold policyManager.
    replace (configHandlerMap P policyManager
               (map_to_list (Configuration_ConfigurationType_name P)).*1)
      with (configHandlerMap P policyManager ctypes); [done|].
    apply map_eq. intros rtype.
    by rewrite !configHandlerMap_lookup.
  - apply set_eq. intros rtype. rewrite (elem_of_dom (configHandlerMap _ _ _)).
    rewrite (configHandlerMap_lookup P policyManager ctypes rtype Hperm).
    destruct (decide (rtype ∈ dom _)) as [Hin|Hnin].
    + split; [done|]. by eexists.
    + split; [|done]. by intros [? ?].
  - intros Hin. rewrite (configHandlerMap_lookup P policyManager ctypes _ Hperm).
    rewrite decide_True by done. unfold handlerOf. by rewrite decide_True.
  - intros rtype Hin Hne.
    rewrite (configHandlerMap_lookup P policyManager ctypes _ Hperm).
    rewrite decide_True by done. unfold handlerOf. by rewrite decide_False.
Qed.

(** Two declared types, visited in the order Policy, ChannelParameters; the
    manager built is the handler map it received. *)
Lemma configHandlerMap_covers_declared_types_witness :
  result (bootstrapConfigManager Encoded.packages (Encoded.probe Encoded.packages) [])
  = Done (configHandlerMap Encoded.packages (as_CryptoHelper XxxCryptoHelper) [0; 1])
  ∧ dom (configHandlerMap Encoded.packages (as_CryptoHelper XxxCryptoHelper) [0; 1])
    = dom Fixture.ctypes
  ∧ configHandlerMap Encoded.packages (as_CryptoHelper XxxCryptoHelper) [0; 1] !! 0
    = Some (PolicyHandler (as_CryptoHelper XxxCryptoHelper))
  ∧ configHandlerMap Encoded.packages (as_CryptoHelper XxxCryptoHelper) [0; 1] !! 1
    = Some BytesHandler.
Proof.
  destruct (configHandlerMap_covers_declared_types Encoded.packages
              (Encoded.probe Encoded.packages) [] [0; 1])
    as (Hrun & Hdom & Hpolicy & Hother).
  - vm_compute. apply perm_swap.
  - split; [by rewrite Hrun|]. split; [exact Hdom|]. split.
    + apply Hpolicy. vm_compute. reflexivity.
    + apply Hother; [vm_compute; reflexivity | discriminate].
Defined.

(** ** Events of the scan *)

Section ScanEvents.

Context (P : Packages).

(** One turn of the loop when the ready signal is available: Next is
    called; the loop panics on a failed Next (or a nil block), and goes
    on with the advanced cursor otherwise. *)
Lemma loop_ready fuel rl it lastConfigTx :
  ReadyChan rl it = true →
  (∃ p, retrieveConfiguration_loop P (S fuel) rl it lastConfigTx
        = ([EvNext (Next rl it).1.2], Panicked p)
        ∧ ((Next rl it).1.2 ≠ Status_SUCCESS →
           p = PanicParsingBlockchain (Next rl it).1.2))
  ∨ ((Next rl it).1.2 = Status_SUCCESS
     ∧ ∃ lastConfigTx',
         retrieveConfiguration_loop P (S fuel) rl it lastConfigTx
         = (emit (EvNext Status_SUCCESS);;
            retrieveConfiguration_loop P fuel rl (Next rl it).2 lastConfigTx')).
Proof.
  intros Hr. cbn [retrieveConfiguration_loop]. rewrite Hr.
  destruct (Next rl it) as [[block status] it']. cbn [fst snd].
  destruct (decide (status ≠ Status_SUCCESS)) as [Hs|Hs].
  { left. eexists. split; [reflexivity|done]. }
  apply dec_stable in Hs. subst status.
  destruct block as [block|].
  2:{ left. eexists. split; [reflexivity|done]. }
  destruct (decide (length (Messages block) ≠ 1%nat)).
  { right. split; [done|]. by eexists. }
  destruct (Messages block !! 0%nat) as [m|].
  2:{ left. eexists. split; [reflexivity|done]. }
  destruct (proto_Unmarshal P (Data m)); right; (split; [done|]); by eexists.
Qed.

(** The loop calls nothing but Next. *)
Lemma loop_trace_Next fuel rl :
  ∀ it lastConfigTx,
    Forall (λ e, is_Next e = true)
           (trace (retrieveConfiguration_loop P fuel rl it lastConfigTx)).
Proof.
  induction fuel as [|fuel IH]; intros it lastConfigTx; [by constructor|].
  destruct (ReadyChan rl it) eqn:Hr.
  2:{ rewrite loop_not_ready by done. by constructor. }
  destruct (loop_ready fuel rl it lastConfigTx Hr)
    as [(p & -> & _) | (_ & l' & ->)].
  - by repeat constructor.
  - rewrite emit_bind. constructor; [done|apply IH].
Qed.

(** A Next that does not return SUCCESS makes the scan panic. *)
Lemma loop_failed_Next fuel rl status :
  status ≠ Status_SUCCESS →
  ∀ it lastConfigTx,
    EvNext status ∈ trace (retrieveConfiguration_loop P fuel rl it lastConfigTx) →
    result (retrieveConfiguration_loop P fuel rl it lastConfigTx)
    = Panicked (PanicParsingBlockchain status).
Proof.
  intros Hs. induction fuel as [|fuel IH]; intros it lastConfigTx Hin.
  { by apply elem_of_nil in Hin. }
  destruct (ReadyChan rl it) eqn:Hr.
  2:{ rewrite loop_not_ready in Hin by done. by apply elem_of_nil in Hin. }
  destruct (loop_ready fuel rl it lastConfigTx Hr)
    as [(p & E & Hp) | (Hok & l' & E)]; rewrite E in *; clear E.
  - simpl in *. apply list_elem_of_singleton in Hin.
    injection Hin as Hst. rewrite <- Hst in Hp. by rewrite Hp.
  - rewrite emit_bind in *. simpl in *.
    apply elem_of_cons in Hin as [Hin|Hin]; [congruence|]. by apply IH.
Qed.

Lemma retrieveConfiguration_failed_Next fuel rl status :
  status ≠ Status_SUCCESS →
  EvNext status ∈ trace (retrieveConfiguration P fuel rl) →
  result (retrieveConfiguration P fuel rl) = Panicked (PanicParsingBlockchain status).
Proof.
  intros Hs. unfold retrieveConfiguration. rewrite emit_bind. simpl.
  intros Hin. apply elem_of_cons in Hin as [Hin|Hin]; [discriminate|].
  by apply loop_failed_Next.
Qed.

Lemma retrieveConfiguration_never_serves fuel rl :
  serves (trace (retrieveConfiguration P fuel rl)) = false.
Proof.
  unfold retrieveConfiguration. rewrite emit_bind. simpl.
  pose proof (loop_trace_Next fuel rl (Iterator rl SeekInfo_OLDEST 0) None) as HN.
  induction HN as [|e t He _ IH]; [done|].
  simpl. rewrite IH. by destruct e.
Qed.

Lemma retrieveConfiguration_no_pipeline fuel rl :
  solo_pipeline (trace (retrieveConfiguration P fuel rl)) = [].
Proof.
  unfold retrieveConfiguration. rewrite emit_bind. simpl.
  pose proof (loop_trace_Next fuel rl (Iterator rl SeekInfo_OLDEST 0) None) as HN.
  induction HN as [|e t He _ IH]; [done|].
  destruct e; try discriminate He. exact IH.
Qed.

End ScanEvents.

(** ** The choice of the ledger *)




(** The choice of the ledger neither serves nor builds the solo pipeline. *)
Lemma launchSolo_rawledger_quiet P H conf genesisBlock :
  serves (trace (launchSolo_rawledger P H conf genesisBlock)) = false
  ∧ solo_pipeline (trace (launchSolo_rawledger P H conf genesisBlock)) = [].
Proof.
  unfold launchSolo_rawledger.
  destruct (decide (os_Getenv H "ORDERER_LEDGER_TYPE" = "file")); [|done].
  destruct (decide (config.Location (config.fileLedger conf) = "")); [|done].
  by destruct (ioutil_TempDir H "" (config.Prefix (config.fileLedger conf))).
Qed.

(** Building the configuration manager: two calls, whatever the manager. *)
Lemma bootstrapConfigManager_trace P (X : Configtx P) lastConfigTx :
  trace (bootstrapConfigManager P X lastConfigTx)
  = [EvNewManagerImpl (as_CryptoHelper XxxCryptoHelper); EvNewConfigurationManager].
Proof.
  unfold bootstrapConfigManager.
  by destruct (NewConfigurationManager X _ _ _).
Qed.

(** ** launchSolo *)

Section LaunchSolo.

Context (P : Packages) (X : Configtx P) (H : Host).

Arguments launchSolo_rawledger : simpl never.
Arguments retrieveConfiguration : simpl never.
Arguments bootstrapConfigManager : simpl never.
Arguments Sprintf_address : simpl never.

(** launchSolo once it listens and has its genesis block: the ledger is
    chosen and scanned, and the run goes on according to the scan. *)
Lemma launchSolo_listening fuel conf lis genesisBlock t1 rawledger t2 r2 :
  net_Listen H (Sprintf_address (config.ListenAddress (config.general conf))
                                (config.ListenPort (config.general conf))) = inl lis →
  config.GenesisMethod (config.general conf) = "static" →
  static_GenesisBlock P = inl genesisBlock →
  launchSolo_rawledger P H conf genesisBlock = (t1, Done rawledger) →
  retrieveConfiguration P fuel rawledger = (t2, r2) →
  let before :=
    [EvGrpcNewServer;
     EvListen (Sprintf_address (config.ListenAddress (config.general conf))
                               (config.ListenPort (config.general conf)));
     EvStaticNew; EvGenesisBlock] ++ t1 ++ t2 in
  launchSolo P X H fuel conf
  = match r2 with
    | Done (Some lastConfigTx) =>
      match result (bootstrapConfigManager P X lastConfigTx) with
      | Done _ =>
        (before ++ trace (bootstrapConfigManager P X lastConfigTx)
           ++ [EvSoloNew
                 {| solo_queueSize := int (config.QueueSize (config.general conf));
                    solo_batchSize := int (config.BatchSize (config.general conf));
                    solo_maxWindowSize :=
                      int (config.MaxWindowSize (config.general conf));
                    solo_batchTimeout := config.BatchTimeout (config.general conf);
                    solo_rl := rawledger |};
               EvServe lis],
         Done tt)
      | Panicked p =>
        (before ++ trace (bootstrapConfigManager P X lastConfigTx), Panicked p)
      | Exited c =>
        (before ++ trace (bootstrapConfigManager P X lastConfigTx), Exited c)
      | Running =>
        (before ++ trace (bootstrapConfigManager P X lastConfigTx), Running)
      end
    | Done None => (before, Panicked PanicNoChainConfiguration)
    | Panicked p => (before, Panicked p)
    | Exited c => (before, Exited c)
    | Running => (before, Running)
    end.
Proof.
  intros Hl Hs Hg E1 E2 before. subst before. unfold launchSolo.
  simpl. rewrite Hl. rewrite decide_True by done. simpl. rewrite Hg, E1. simpl.
  rewrite E2.
  destruct r2 as [[lastConfigTx|]| | |]; simpl; try (by rewrite ?app_nil_r).
  destruct (bootstrapConfigManager P X lastConfigTx) as [t3 [cm| | |]]; simpl;
    by rewrite <- ?app_assoc.
Qed.

End LaunchSolo.

Lemma serves_app t1 t2 : serves (t1 ++ t2) = serves t1 || serves t2.
Proof. apply existsb_app. Qed.

Lemma solo_pipeline_app t1 t2 : solo_pipeline (t1 ++ t2) = solo_pipeline t1 ++ solo_pipeline t2.
Proof. apply omap_app. Qed.

Lemma retrieveConfiguration_opens_OLDEST P fuel rl :
  EvIterator SeekInfo_OLDEST 0 ∈ trace (retrieveConfiguration P fuel rl).
Proof. unfold retrieveConfiguration. rewrite emit_bind. left. Qed.

Section LaunchSoloServes.

Context (P : Packages) (X : Configtx P) (H : Host).

(** launchSolo serves only at its very end, after the whole bootstrap
    sequence went through. *)
Lemma launchSolo_serves_after_bootstrap fuel conf :
  serves (trace (launchSolo P X H fuel conf)) = true →
  result (launchSolo P X H fuel conf) = Done tt
  ∧ EvGenesisBlock ∈ trace (launchSolo P X H fuel conf)
  ∧ EvIterator SeekInfo_OLDEST 0 ∈ trace (launchSolo P X H fuel conf)
  ∧ EvNewManagerImpl (as_CryptoHelper XxxCryptoHelper)
      ∈ trace (launchSolo P X H fuel conf)
  ∧ EvNewConfigurationManager ∈ trace (launchSolo P X H fuel conf).
Proof.
  destruct (net_Listen H (Sprintf_address (config.ListenAddress (config.general conf))
                            (config.ListenPort (config.general conf))))
    as [lis|err] eqn:Hl.
  2:{ unfold launchSolo. simpl. rewrite Hl. simpl. discriminate. }
  destruct (decide (config.GenesisMethod (config.general conf) = "static")) as [Hs|Hs].
  2:{ unfold launchSolo. simpl. rewrite Hl. rewrite decide_False by done.
      simpl. discriminate. }
  destruct (static_GenesisBlock P) as [genesisBlock|err] eqn:Hg.
  2:{ unfold launchSolo. simpl. rewrite Hl. rewrite decide_True by done.
      simpl. rewrite Hg. simpl. discriminate. }
  destruct (launchSolo_rawledger_quiet P H conf genesisBlock) as [Hq _].
  destruct (launchSolo_rawledger P H conf genesisBlock) as [t1 r1] eqn:E1.
  simpl in Hq.
  assert (Hfail : ∀ r, r1 = r → (∀ rl, r ≠ Done rl) →
            serves (trace (launchSolo P X H fuel conf)) = false).
  { intros r -> Hr. unfold launchSolo. simpl. rewrite Hl.
    rewrite decide_True by done. simpl. rewrite Hg, E1.
    destruct r as [rl| | |]; simpl; rewrite ?Hq; try done. by destruct (Hr rl). }
  destruct r1 as [rawledger| | |];
    try (intros Hserve; rewrite (Hfail _ eq_refl) in Hserve; done).
  clear Hfail.
  pose proof (retrieveConfiguration_never_serves P fuel rawledger) as Hq2.
  pose proof (retrieveConfiguration_opens_OLDEST P fuel rawledger) as Hopen.
  destruct (retrieveConfiguration P fuel rawledger) as [t2 r2] eqn:E2.
  simpl in Hq2, Hopen.
  rewrite (launchSolo_listening P X H fuel conf lis genesisBlock t1 rawledger t2 r2
             Hl Hs Hg E1 E2).
  assert (Hbefore : serves ([EvGrpcNewServer;
     EvListen (Sprintf_address (config.ListenAddress (config.general conf))
                               (config.ListenPort (config.general conf)));
     EvStaticNew; EvGenesisBlock] ++ t1 ++ t2) = false).
  { rewrite !serves_app, Hq, Hq2. done. }
  destruct r2 as [[lastConfigTx|]| | |];
    try (cbn [trace result fst snd]; rewrite Hbefore; discriminate).
  rewrite (bootstrapConfigManager_trace P X lastConfigTx).
  destruct (result (bootstrapConfigManager P X lastConfigTx));
    cbn [trace result fst snd];
    try (rewrite serves_app, Hbefore; discriminate).
  intros _. split; [done|].
  rewrite !elem_of_app, !elem_of_cons. tauto.
Qed.

End LaunchSoloServes.

(** C2: once launchSolo listens, each bootstrap failure ends it in a panic
    before solo.New and before Serve: an error from the genesis-block
    retrieval, a Next of the bootstrap scan that returns a status other
    than SUCCESS, and a scan that returns no configuration. *)
Theorem launchSolo_bootstrap_failure_is_fatal
    (P : Packages) (X : Configtx P) (H : Host) (fuel : nat) (conf : config.TopLevel)
    (lis : Listener) :
  net_Listen H (Sprintf_address (config.ListenAddress (config.general conf))
                                (config.ListenPort (config.general conf))) = inl lis →
  config.GenesisMethod (config.general conf) = "static" →
  (∀ err, static_GenesisBlock P = inr err →
     result (launchSolo P X H fuel conf) = Panicked (PanicGenesisBlock err)
     ∧ serves (trace (launchSolo P X H fuel conf)) = false
     ∧ solo_pipeline (trace (launchSolo P X H fuel conf)) = [])
  ∧ (∀ genesisBlock t1 rawledger,
       static_GenesisBlock P = inl genesisBlock →
       launchSolo_rawledger P H conf genesisBlock = (t1, Done rawledger) →
       (∀ status,
          status ≠ Status_SUCCESS →
          EvNext status ∈ trace (retrieveConfiguration P fuel rawledger) →
          result (launchSolo P X H fuel conf) = Panicked (PanicParsingBlockchain status)
          ∧ serves (trace (launchSolo P X H fuel conf)) = false
          ∧ solo_pipeline (trace (launchSolo P X H fuel conf)) = [])
       ∧ (result (retrieveConfiguration P fuel rawledger) = Done None →
          result (launchSolo P X H fuel conf) = Panicked PanicNoChainConfiguration
          ∧ serves (trace (launchSolo P X H fuel conf)) = false
          ∧ solo_pipeline (trace (launchSolo P X H fuel conf)) = [])).
Proof.
  intros Hl Hs. split.
  - intros err Hg. unfold launchSolo. simpl. rewrite Hl.
    rewrite decide_True by done. simpl. by rewrite Hg.
  - intros genesisBlock t1 rawledger Hg E1.
    destruct (launchSolo_rawledger_quiet P H conf genesisBlock) as [Hq Hp].
    rewrite E1 in Hq, Hp. simpl in Hq, Hp.
    pose proof (retrieveConfiguration_never_serves P fuel rawledger) as Hq2.
    pose proof (retrieveConfiguration_no_pipeline P fuel rawledger) as Hp2.
    assert (Hpanic : ∀ p, result (retrieveConfiguration P fuel rawledger) = Panicked p →
              result (launchSolo P X H fuel conf) = Panicked p
              ∧ serves (trace (launchSolo P X H fuel conf)) = false
              ∧ solo_pipeline (trace (launchSolo P X H fuel conf)) = []).
    { intros p Hr.
      destruct (retrieveConfiguration P fuel rawledger) as [t2 r2] eqn:E2.
      simpl in Hr, Hq2, Hp2. subst r2.
      rewrite (launchSolo_listening P X H fuel conf lis genesisBlock t1 rawledger t2 _
                 Hl Hs Hg E1 E2).
      cbn [trace result fst snd].
      rewrite !serves_app, !solo_pipeline_app, Hq, Hq2, Hp, Hp2. done. }
    split.
    + intros status Hne Hin. apply Hpanic.
      by apply retrieveConfiguration_failed_Next.
    + intros Hr.
      destruct (retrieveConfiguration P fuel rawledger) as [t2 r2] eqn:E2.
      simpl in Hr, Hq2, Hp2. subst r2.
      rewrite (launchSolo_listening P X H fuel conf lis genesisBlock t1 rawledger t2 _
                 Hl Hs Hg E1 E2).
      cbn [trace result fst snd].
      rewrite !serves_app, !solo_pipeline_app, Hq, Hq2, Hp, Hp2. done.
Qed.

(** Three startups: no genesis block, a ledger whose Next fails, and a
    ledger without a configuration. *)
Lemma launchSolo_bootstrap_failure_is_fatal_witness :
  (result (launchSolo Fixture.P2 (Fixture.configtx Fixture.P2 Fixture.allowAll)
             (Fixture.host "ram") 7 (Fixture.conf "solo"))
   = Panicked (PanicGenesisBlock "no genesis block")
   ∧ serves (trace (launchSolo Fixture.P2 (Fixture.configtx Fixture.P2 Fixture.allowAll)
                      (Fixture.host "ram") 7 (Fixture.conf "solo"))) = false
   ∧ solo_pipeline (trace (launchSolo Fixture.P2
                             (Fixture.configtx Fixture.P2 Fixture.allowAll)
                             (Fixture.host "ram") 7 (Fixture.conf "solo"))) = [])
  ∧ (result (launchSolo Fixture.P3 (Fixture.configtx Fixture.P3 Fixture.allowAll)
               (Fixture.host "ram") 7 (Fixture.conf "solo"))
     = Panicked (PanicParsingBlockchain Status_SERVICE_UNAVAILABLE)
     ∧ serves (trace (launchSolo Fixture.P3 (Fixture.configtx Fixture.P3 Fixture.allowAll)
                        (Fixture.host "ram") 7 (Fixture.conf "solo"))) = false
     ∧ solo_pipeline (trace (launchSolo Fixture.P3
                               (Fixture.configtx Fixture.P3 Fixture.allowAll)
                               (Fixture.host "ram") 7 (Fixture.conf "solo"))) = [])
  ∧ (result (launchSolo Fixture.P4 (Fixture.configtx Fixture.P4 Fixture.allowAll)
               (Fixture.host "ram") 7 (Fixture.conf "solo"))
     = Panicked PanicNoChainConfiguration
     ∧ serves (trace (launchSolo Fixture.P4 (Fixture.configtx Fixture.P4 Fixture.allowAll)
                        (Fixture.host "ram") 7 (Fixture.conf "solo"))) = false
     ∧ solo_pipeline (trace (launchSolo Fixture.P4
                               (Fixture.configtx Fixture.P4 Fixture.allowAll)
                               (Fixture.host "ram") 7 (Fixture.conf "solo"))) = []).
Proof.
  split; [|split].
  - apply (launchSolo_bootstrap_failure_is_fatal Fixture.P2
             (Fixture.configtx Fixture.P2 Fixture.allowAll) (Fixture.host "ram") 7
             (Fixture.conf "solo") {| listen_address := "127.0.0.1:5151" |});
      reflexivity.
  - destruct (launchSolo_bootstrap_failure_is_fatal Fixture.P3
                (Fixture.configtx Fixture.P3 Fixture.allowAll) (Fixture.host "ram") 7
                (Fixture.conf "solo") {| listen_address := "127.0.0.1:5151" |})
      as [_ Hscan]; [reflexivity | reflexivity |].
    destruct (Hscan Fixture.genesis
                [EvGetenv "ORDERER_LEDGER_TYPE"; EvRamLedgerNew 10000 Fixture.genesis]
                Fixture.brokenLedger) as [Hnext _]; [reflexivity | reflexivity |].
    apply (Hnext Status_SERVICE_UNAVAILABLE).
    + discriminate.
    + right. left.
  - destruct (launchSolo_bootstrap_failure_is_fatal Fixture.P4
                (Fixture.configtx Fixture.P4 Fixture.allowAll) (Fixture.host "ram") 7
                (Fixture.conf "solo") {| listen_address := "127.0.0.1:5151" |})
      as [_ Hscan]; [reflexivity | reflexivity |].
    destruct (Hscan (Fixture.block [Fixture.txMessage x00])
                [EvGetenv "ORDERER_LEDGER_TYPE";
                 EvRamLedgerNew 10000 (Fixture.block [Fixture.txMessage x00])]
                (Fixture.ramOf (Fixture.block [Fixture.txMessage x00])))
      as [_ Hnone]; [reflexivity | reflexivity |].
    apply Hnone. reflexivity.
Defined.

(** ** The configuration manager and the broadcast pipeline *)

(** C3, as stated, fails.  The ledger is a fresh RAM ledger on a genesis
    block whose one message is the empty encoding of a
    ConfigurationEnvelope, which unmarshals to the envelope with no fields
    set.  Two startups on it whose configuration managers hold opposite
    verdicts on a submitted envelope run the same calls and hand solo.New
    the same arguments, so whatever Broadcast decides, it decides the same
    in both. *)
Lemma broadcast_pipeline_blind_to_policy_set :
  proto_Unmarshal Encoded.packages [] = Some []
  ∧ result (retrieveConfiguration Encoded.packages 3 (Fixture.ramOf Encoded.genesis))
    = Done (Some [])
  ∧ result (bootstrapConfigManager Encoded.packages
              (Fixture.configtx Encoded.packages Fixture.allowAll) [])
    = Done Fixture.allowAll
  ∧ result (bootstrapConfigManager Encoded.packages
              (Fixture.configtx Encoded.packages Fixture.denyAll) [])
    = Done Fixture.denyAll
  ∧ Fixture.allowAll Fixture.submitted = true
  ∧ Fixture.denyAll Fixture.submitted = false
  ∧ launchSolo Encoded.packages (Fixture.configtx Encoded.packages Fixture.allowAll)
      (Fixture.host "ram") 3 (Fixture.conf "solo")
    = launchSolo Encoded.packages (Fixture.configtx Encoded.packages Fixture.denyAll)
        (Fixture.host "ram") 3 (Fixture.conf "solo")
  ∧ serves (trace (launchSolo Encoded.packages
                     (Fixture.configtx Encoded.packages Fixture.denyAll)
                     (Fixture.host "ram") 3 (Fixture.conf "solo"))) = true
  ∧ solo_pipeline (trace (launchSolo Encoded.packages
                            (Fixture.configtx Encoded.packages Fixture.denyAll)
                            (Fixture.host "ram") 3 (Fixture.conf "solo")))
    = [ {| solo_queueSize := 1000; solo_batchSize := 10; solo_maxWindowSize := 1000;
           solo_batchTimeout := 10; solo_rl := Fixture.ramOf Encoded.genesis |} ].
Proof. repeat split. Qed.

(** C3, amended: the configuration manager built at startup is dropped;
    solo.New receives the queue size, batch size, window size, batch
    timeout and the ledger only, so two startups that differ in nothing
    but the configuration manager they build run the same calls and serve
    the same pipeline. *)
Theorem launchSolo_ignores_configuration_manager
    (P : Packages) (X1 X2 : Configtx P) (H : Host) (fuel : nat) (conf : config.TopLevel) :
  result (launchSolo P X1 H fuel conf) = Done tt →
  result (launchSolo P X2 H fuel conf) = Done tt →
  launchSolo P X1 H fuel conf = launchSolo P X2 H fuel conf.
Proof.
  destruct (net_Listen H (Sprintf_address (config.ListenAddress (config.general conf))
                            (config.ListenPort (config.general conf))))
    as [lis|err] eqn:Hl.
  2:{ intros _ _. unfold launchSolo. simpl. by rewrite Hl. }
  destruct (decide (config.GenesisMethod (config.general conf) = "static")) as [Hs|Hs].
  2:{ intros _ _. unfold launchSolo. simpl. rewrite Hl. by rewrite !decide_False. }
  destruct (static_GenesisBlock P) as [genesisBlock|err] eqn:Hg.
  2:{ intros _ _. unfold launchSolo. simpl. rewrite Hl. rewrite !decide_True by done.
      simpl. by rewrite Hg. }
  destruct (launchSolo_rawledger P H conf genesisBlock) as [t1 r1] eqn:E1.
  destruct r1 as [rawledger| | |];
    try (intros _ _; unfold launchSolo; simpl; rewrite Hl; rewrite !decide_True by done;
         simpl; by rewrite Hg, E1).
  destruct (retrieveConfiguration P fuel rawledger) as [t2 r2] eqn:E2.
  rewrite (launchSolo_listening P X1 H fuel conf lis genesisBlock t1 rawledger t2 r2
             Hl Hs Hg E1 E2).
  rewrite (launchSolo_listening P X2 H fuel conf lis genesisBlock t1 rawledger t2 r2
             Hl Hs Hg E1 E2).
  destruct r2 as [[lastConfigTx|]| | |]; try done.
  rewrite !bootstrapConfigManager_trace.
  destruct (result (bootstrapConfigManager P X1 lastConfigTx)),
           (result (bootstrapConfigManager P X2 lastConfigTx)); done.
Qed.

(** Two startups on the RAM ledger of the encoded genesis block, one
    manager allowing and one denying every envelope. *)
Lemma launchSolo_ignores_configuration_manager_witness :
  launchSolo Encoded.packages (Fixture.configtx Encoded.packages Fixture.allowAll)
    (Fixture.host "ram") 3 (Fixture.conf "solo")
  = launchSolo Encoded.packages (Fixture.configtx Encoded.packages Fixture.denyAll)
      (Fixture.host "ram") 3 (Fixture.conf "solo").
Proof.
  apply (launchSolo_ignores_configuration_manager Encoded.packages
           (Fixture.configtx Encoded.packages Fixture.allowAll)
           (Fixture.configtx Encoded.packages Fixture.denyAll)
           (Fixture.host "ram") 3 (Fixture.conf "solo")); reflexivity.
Defined.

(** ** launchKafka *)

Lemma launchKafka_no_bootstrap H conf : bootstraps (trace (launchKafka H conf)) = false.
Proof.
  unfold launchKafka.
  destruct (flag_Parse H) as [[loglevel verbose]|code]; [|done].
  cbn [config.general config.ListenAddress config.ListenPort].
  destruct verbose;
    (destruct (net_Listen H _); [destruct (interrupted H)|]); reflexivity.
Qed.

(** C10: launchKafka retrieves no genesis block, scans no ledger and builds
    neither a policy manager nor a configuration manager; with the orderer
    type "kafka", main runs launchKafka, which registers the
    AtomicBroadcast service and serves once the flags parse and the
    listener opens.  No orderer type other than "solo" runs a bootstrap
    step, and the solo path serves only after all of them. *)
Theorem launchKafka_runs_no_bootstrap
    (P : Packages) (X : Configtx P) (H : Host) (fuel : nat) (conf : config.TopLevel) :
  bootstraps (trace (launchKafka H conf)) = false
  ∧ (config.OrdererType (config.general conf) = "kafka" →
     main P X H fuel conf = launchKafka H conf)
  ∧ (∀ loglevel verbose lis,
       flag_Parse H = inl (loglevel, verbose) →
       net_Listen H (Sprintf_address (config.ListenAddress (config.general conf))
                                     (config.ListenPort (config.general conf))) = inl lis →
       EvRegisterAtomicBroadcastServer ∈ trace (launchKafka H conf)
       ∧ EvGoServe lis ∈ trace (launchKafka H conf))
  ∧ (config.OrdererType (config.general conf) ≠ "solo" →
     bootstraps (trace (main P X H fuel conf)) = false)
  ∧ (config.OrdererType (config.general conf) = "solo" →
     serves (trace (main P X H fuel conf)) = true →
     EvGenesisBlock ∈ trace (main P X H fuel conf)
     ∧ EvIterator SeekInfo_OLDEST 0 ∈ trace (main P X H fuel conf)
     ∧ EvNewManagerImpl (as_CryptoHelper XxxCryptoHelper) ∈ trace (main P X H fuel conf)
     ∧ EvNewConfigurationManager ∈ trace (main P X H fuel conf)).
Proof.
  split; [apply launchKafka_no_bootstrap|]. split; [|split; [|split]].
  - intros Hk. unfold main. rewrite Hk.
    rewrite decide_False by discriminate. by rewrite decide_True.
  - intros loglevel verbose lis Hflag Hl. unfold launchKafka. rewrite Hflag.
    cbn [config.general config.ListenAddress config.ListenPort]. rewrite Hl.
    destruct verbose, (interrupted H); cbn; rewrite !elem_of_cons; tauto.
  - intros Hne. unfold main. rewrite decide_False by done.
    destruct (decide (config.OrdererType (config.general conf) = "kafka")); [|done].
    apply launchKafka_no_bootstrap.
  - intros Hsolo. unfold main. rewrite decide_True by done.
    intros Hserve.
    by apply launchSolo_serves_after_bootstrap in Hserve as (_ & ? & ? & ? & ?).
Qed.

(** The same packages and host started as "kafka" and as "solo". *)
Lemma launchKafka_runs_no_bootstrap_witness :
  main Fixture.P1 (Fixture.configtx Fixture.P1 Fixture.allowAll) (Fixture.host "ram") 3
    (Fixture.conf "kafka")
  = launchKafka (Fixture.host "ram") (Fixture.conf "kafka")
  ∧ bootstraps (trace (main Fixture.P1 (Fixture.configtx Fixture.P1 Fixture.allowAll)
                         (Fixture.host "ram") 3 (Fixture.conf "kafka"))) = false
  ∧ EvGoServe {| listen_address := "127.0.0.1:5151" |}
      ∈ trace (launchKafka (Fixture.host "ram") (Fixture.conf "kafka"))
  ∧ EvGenesisBlock
      ∈ trace (main Fixture.P1 (Fixture.configtx Fixture.P1 Fixture.allowAll)
                 (Fixture.host "ram") 3 (Fixture.conf "solo")).
Proof.
  destruct (launchKafka_runs_no_bootstrap Fixture.P1
              (Fixture.configtx Fixture.P1 Fixture.allowAll) (Fixture.host "ram") 3
              (Fixture.conf "kafka")) as (_ & Hmain & Hserve & Hother & _).
  destruct (launchKafka_runs_no_bootstrap Fixture.P1
              (Fixture.configtx Fixture.P1 Fixture.allowAll) (Fixture.host "ram") 3
              (Fixture.conf "solo")) as (_ & _ & _ & _ & Hsolo).
  split; [apply Hmain; reflexivity|].
  split; [apply Hother; discriminate|].
  split.
  - apply (Hserve "info" false {| listen_address := "127.0.0.1:5151" |}); reflexivity.
  - apply Hsolo; reflexivity.
Defined.

(** ** More on the bootstrap scan *)

Section ScanFailure.

Context (P : Packages).

Lemma loop_fails rl it chain status :
  fails_after rl it chain status →
  ∀ fuel lastConfigTx, (length chain < fuel)%nat →
  retrieveConfiguration_loop P fuel rl it lastConfigTx
  = (replicate (length chain) (EvNext Status_SUCCESS) ++ [EvNext status],
     Panicked (PanicParsingBlockchain status)).
Proof.
  induction 1 as [it it' block status Hr Hn Hs | it it' b chain status Hr Hn _ IH];
    intros fuel lastConfigTx Hf.
  - destruct fuel as [|fuel]; [simpl in Hf; lia|].
    cbn [retrieveConfiguration_loop]. rewrite Hr, Hn.
    by rewrite decide_True by done.
  - destruct fuel as [|fuel]; [simpl in Hf; lia|].
    rewrite (loop_block P _ _ _ _ _ _ Hr Hn), emit_bind.
    by rewrite IH by (simpl in Hf; lia).
Qed.

(** In the trace of the loop, a Next that is followed by anything returned
    SUCCESS. *)
Lemma loop_Next_then_more fuel rl :
  ∀ it lastConfigTx t1 status t2,
    trace (retrieveConfiguration_loop P fuel rl it lastConfigTx)
    = t1 ++ EvNext status :: t2 →
    t2 ≠ [] →
    status = Status_SUCCESS.
Proof.
  induction fuel as [|fuel IH]; intros it lastConfigTx t1 status t2 Ht Hne.
  { by destruct t1. }
  destruct (ReadyChan rl it) eqn:Hr.
  2:{ rewrite loop_not_ready in Ht by done. by destruct t1. }
  destruct (loop_ready P fuel rl it lastConfigTx Hr)
    as [(p & E & _) | (Hok & l' & E)]; rewrite E in Ht; clear E.
  - simpl in Ht. destruct t1 as [|e [|e' t1]]; simpl in Ht; simplify_eq.
  - rewrite emit_bind in Ht. simpl in Ht.
    destruct t1 as [|e t1]; simpl in Ht; injection Ht as He Ht.
    + congruence.
    + by eapply IH.
Qed.

End ScanFailure.

(** X1: when the cursor hands out the blocks [chain] and the Next after
    them returns a status other than SUCCESS, the scan panics with that
    status after one Next per block and the failed one; a configuration
    found in [chain] before the failure is not returned. *)
Theorem retrieveConfiguration_failure_discards_configuration
    (P : Packages) (rl : Reader) (chain : list Block) (status : Status) (fuel : nat) :
  fails_after rl (Iterator rl SeekInfo_OLDEST 0) chain status →
  (length chain < fuel)%nat →
  retrieveConfiguration P fuel rl
  = (EvIterator SeekInfo_OLDEST 0
       :: replicate (length chain) (EvNext Status_SUCCESS) ++ [EvNext status],
     Panicked (PanicParsingBlockchain status)).
Proof.
  intros Hfail Hf. unfold retrieveConfiguration.
  by rewrite emit_bind, (loop_fails P _ _ _ _ Hfail) by done.
Qed.

(** A ledger whose first block is a configuration and whose second Next
    reports NOT_FOUND. *)
Lemma retrieveConfiguration_failure_discards_configuration_witness :
  retrieveConfiguration Fixture.P1 2
    (failingLedger [Fixture.genesis] Status_NOT_FOUND)
  = ([EvIterator SeekInfo_OLDEST 0; EvNext Status_SUCCESS; EvNext Status_NOT_FOUND],
     Panicked (PanicParsingBlockchain Status_NOT_FOUND)).
Proof.
  apply (retrieveConfiguration_failure_discards_configuration Fixture.P1
           (failingLedger [Fixture.genesis] Status_NOT_FOUND) [Fixture.genesis]
           Status_NOT_FOUND 2).
  - eapply fails_later with (it' := 1%nat); [reflexivity | reflexivity |].
    eapply fails_now with (it' := 2%nat) (block := None);
      [reflexivity | reflexivity | discriminate].
  - simpl. lia.
Defined.

(** X2: the scan never calls Next again after a Next that failed: in its
    trace, every Next that is followed by another event returned SUCCESS. *)
Theorem retrieveConfiguration_stops_at_failed_Next
    (P : Packages) (rl : Reader) (fuel : nat) (t1 t2 : list Event) (status : Status) :
  trace (retrieveConfiguration P fuel rl) = t1 ++ EvNext status :: t2 →
  t2 ≠ [] →
  status = Status_SUCCESS.
Proof.
  unfold retrieveConfiguration. rewrite emit_bind. simpl. intros Ht Hne.
  destruct t1 as [|e t1]; [discriminate Ht|].
  injection Ht as _ Ht. by eapply loop_Next_then_more.
Qed.

Lemma retrieveConfiguration_stops_at_failed_Next_witness :
  trace (retrieveConfiguration Fixture.P1 2
           (failingLedger [Fixture.genesis] Status_NOT_FOUND))
  = [EvIterator SeekInfo_OLDEST 0] ++ EvNext Status_SUCCESS :: [EvNext Status_NOT_FOUND]
  ∧ Status_SUCCESS = Status_SUCCESS.
Proof.
  split; [reflexivity|].
  apply (retrieveConfiguration_stops_at_failed_Next Fixture.P1
           (failingLedger [Fixture.genesis] Status_NOT_FOUND) 2
           [EvIterator SeekInfo_OLDEST 0] [EvNext Status_NOT_FOUND] Status_SUCCESS).
  - reflexivity.
  - discriminate.
Defined.

Lemma configurationOfBlock_Some P b c :
  configurationOfBlock P b = Some c ↔
  ∃ m, Messages b = [m] ∧ proto_Unmarshal P (Data m) = Some c.
Proof.
  unfold configurationOfBlock. split.
  - destruct (Messages b) as [|m [|m' ms]]; try done. intros Hc. by exists m.
  - by intros (m & -> & Hc).
Qed.

(** X3: on a ledger whose cursor yields [chain], the scan returns a
    configuration exactly when some block of the chain holds a single
    message that unmarshals, and the configuration it returns is the
    unmarshalling of such a block of the chain. *)
Theorem retrieveConfiguration_finds_what_the_chain_holds
    (P : Packages) (rl : Reader) (chain : list Block) (fuel : nat) :
  yields rl (Iterator rl SeekInfo_OLDEST 0) chain →
  (length chain < fuel)%nat →
  (∀ c, result (retrieveConfiguration P fuel rl) = Done (Some c) →
        ∃ b m, b ∈ chain ∧ Messages b = [m] ∧ proto_Unmarshal P (Data m) = Some c)
  ∧ (result (retrieveConfiguration P fuel rl) = Done None ↔
     ∀ b m, b ∈ chain → Messages b = [m] → proto_Unmarshal P (Data m) = None).
Proof.
  intros Hy Hf. rewrite (retrieveConfiguration_yields P rl chain fuel Hy Hf).
  cbn [result snd]. unfold lastConfiguration. split.
  - intros c Hc. injection Hc as Hc.
    apply last_Some_elem_of in Hc.
    apply list_elem_of_omap in Hc as (b & Hb & Hc).
    apply configurationOfBlock_Some in Hc as (m & Hm & Hc). by exists b, m.
  - split.
    + intros Hnone b m Hb Hm. injection Hnone as Hnone. apply last_None in Hnone.
      destruct (proto_Unmarshal P (Data m)) as [c|] eqn:Hc; [|done].
      assert (c ∈ omap (configurationOfBlock P) chain) as Hin.
      { apply list_elem_of_omap. exists b. split; [done|].
        apply configurationOfBlock_Some. by exists m. }
      rewrite Hnone in Hin. by apply elem_of_nil in Hin.
    + intros Hall. f_equal. apply last_None.
      destruct (omap (configurationOfBlock P) chain) as [|c l] eqn:E; [done|].
      assert (c ∈ omap (configurationOfBlock P) chain) as Hin by (rewrite E; left).
      apply list_elem_of_omap in Hin as (b & Hb & Hc).
      apply configurationOfBlock_Some in Hc as (m & Hm & Hc).
      by rewrite (Hall b m Hb Hm) in Hc.
Qed.

Lemma retrieveConfiguration_finds_what_the_chain_holds_witness :
  (∃ b m, b ∈ Fixture.chain1 ∧ Messages b = [m]
          ∧ proto_Unmarshal Fixture.P1 (Data m) = Some Fixture.configB)
  ∧ proto_Unmarshal Fixture.P1 (Data (Fixture.txMessage x01)) = None.
Proof.
  split.
  - destruct (retrieveConfiguration_finds_what_the_chain_holds Fixture.P1
                (quiescentLedger Fixture.chain1) Fixture.chain1 7) as [Hfound _].
    + apply quiescentLedger_yields_OLDEST.
    + simpl. lia.
    + apply Hfound. reflexivity.
  - destruct (retrieveConfiguration_finds_what_the_chain_holds Fixture.P1
                (quiescentLedger Fixture.chain3) Fixture.chain3 2) as [_ Hnone].
    + apply quiescentLedger_yields_OLDEST.
    + simpl. lia.
    + apply (proj1 Hnone eq_refl (Fixture.block [Fixture.txMessage x01])
               (Fixture.txMessage x01)); [left | reflexivity].
Defined.

(** X4: blocks appended to a ledger win over the blocks before them: the
    scan of [old ++ new] returns what the scan of [new] returns when that
    is a configuration, and what the scan of [old] returns otherwise. *)
Theorem retrieveConfiguration_appended_blocks_win
    (P : Packages) (rl rl_old rl_new : Reader) (old new : list Block) (fuel : nat) :
  yields rl (Iterator rl SeekInfo_OLDEST 0) (old ++ new) →
  yields rl_old (Iterator rl_old SeekInfo_OLDEST 0) old →
  yields rl_new (Iterator rl_new SeekInfo_OLDEST 0) new →
  (length (old ++ new) < fuel)%nat →
  result (retrieveConfiguration P fuel rl)
  = match result (retrieveConfiguration P fuel rl_new) with
    | Done (Some c) => Done (Some c)
    | _ => result (retrieveConfiguration P fuel rl_old)
    end.
Proof.
  intros Hy Hyo Hyn Hf. rewrite length_app in Hf.
  rewrite (retrieveConfiguration_yields P rl _ fuel Hy) by (rewrite length_app; lia).
  rewrite (retrieveConfiguration_yields P rl_old _ fuel Hyo) by lia.
  rewrite (retrieveConfiguration_yields P rl_new _ fuel Hyn) by lia.
  cbn [result snd]. unfold lastConfiguration. rewrite omap_app, last_app.
  by destruct (last (omap (configurationOfBlock P) new)).
Qed.

Lemma retrieveConfiguration_appended_blocks_win_witness :
  result (retrieveConfiguration Fixture.P1 9
            (quiescentLedger (Fixture.chain1 ++ Fixture.chain3)))
  = Done (Some Fixture.configB)
  ∧ result (retrieveConfiguration Fixture.P1 9
              (quiescentLedger (Fixture.chain3 ++ [Fixture.genesis])))
    = Done (Some [x01]).
Proof.
  split.
  - rewrite (retrieveConfiguration_appended_blocks_win Fixture.P1 _
               (quiescentLedger Fixture.chain1) (quiescentLedger Fixture.chain3)
               Fixture.chain1 Fixture.chain3 9);
      [reflexivity | apply quiescentLedger_yields_OLDEST ..| simpl; lia].
  - rewrite (retrieveConfiguration_appended_blocks_win Fixture.P1 _
               (quiescentLedger Fixture.chain3) (quiescentLedger [Fixture.genesis])
               Fixture.chain3 [Fixture.genesis] 9);
      [reflexivity | apply quiescentLedger_yields_OLDEST ..| simpl; lia].
Defined.

(** ** More on launchSolo *)

Section LaunchSoloCases.

Context (P : Packages) (X : Configtx P) (H : Host).

(** The choice of the ledger either builds a ledger or panics because the
    temporary directory could not be made. *)
Lemma launchSolo_rawledger_cases conf genesisBlock :
  (∃ t1 rawledger,
     launchSolo_rawledger P H conf genesisBlock = (t1, Done rawledger)
     ∧ Forall (λ e, is_kafka_only e = false ∧ is_bootstrap e = false) t1)
  ∨ (∃ err,
       os_Getenv H "ORDERER_LEDGER_TYPE" = "file"
       ∧ config.Location (config.fileLedger conf) = ""
       ∧ ioutil_TempDir H "" (config.Prefix (config.fileLedger conf)) = inr err
       ∧ launchSolo_rawledger P H conf genesisBlock
         = ([EvGetenv "ORDERER_LEDGER_TYPE";
             EvTempDir (config.Prefix (config.fileLedger conf))],
            Panicked (PanicTempDir err))).
Proof.
  unfold launchSolo_rawledger.
  destruct (decide (os_Getenv H "ORDERER_LEDGER_TYPE" = "file")) as [Hf|Hf].
  2:{ left. do 2 eexists. split; [reflexivity|]. by repeat constructor. }
  destruct (decide (config.Location (config.fileLedger conf) = "")) as [Hl|Hl].
  2:{ left. do 2 eexists. split; [reflexivity|]. by repeat constructor. }
  destruct (ioutil_TempDir H "" (config.Prefix (config.fileLedger conf)))
    as [location|err] eqn:Ht.
  - left. do 2 eexists. split; [reflexivity|]. by repeat constructor.
  - right. by exists err.
Qed.

(** Every way launchSolo can go, by the first step that does not go
    through. *)
Lemma launchSolo_cases fuel conf :
  (∃ err,
     net_Listen H (Sprintf_address (config.ListenAddress (config.general conf))
                     (config.ListenPort (config.general conf))) = inr err
     ∧ launchSolo P X H fuel conf
       = ([EvGrpcNewServer;
           EvListen (Sprintf_address (config.ListenAddress (config.general conf))
                       (config.ListenPort (config.general conf)));
           EvPrintln ("Failed to listen: " +:+ err)], Done tt))
  ∨ (∃ lis,
       net_Listen H (Sprintf_address (config.ListenAddress (config.general conf))
                       (config.ListenPort (config.general conf))) = inl lis
       ∧ ((config.GenesisMethod (config.general conf) ≠ "static"
           ∧ launchSolo P X H fuel conf
             = ([EvGrpcNewServer;
                 EvListen (Sprintf_address (config.ListenAddress (config.general conf))
                             (config.ListenPort (config.general conf)))],
                Panicked (PanicUnknownGenesisMethod
                            (config.GenesisMethod (config.general conf)))))
          ∨ (config.GenesisMethod (config.general conf) = "static"
             ∧ ((∃ err,
                   static_GenesisBlock P = inr err
                   ∧ launchSolo P X H fuel conf
                     = ([EvGrpcNewServer;
                         EvListen (Sprintf_address
                                     (config.ListenAddress (config.general conf))
                                     (config.ListenPort (config.general conf)));
                         EvStaticNew; EvGenesisBlock],
                        Panicked (PanicGenesisBlock err)))
                ∨ (∃ genesisBlock,
                     static_GenesisBlock P = inl genesisBlock
                     ∧ ((∃ err,
                           launchSolo_rawledger P H conf genesisBlock
                           = ([EvGetenv "ORDERER_LEDGER_TYPE";
                               EvTempDir (config.Prefix (config.fileLedger conf))],
                              Panicked (PanicTempDir err))
                           ∧ launchSolo P X H fuel conf
                             = ([EvGrpcNewServer;
                                 EvListen (Sprintf_address
                                             (config.ListenAddress (config.general conf))
                                             (config.ListenPort (config.general conf)));
                                 EvStaticNew; EvGenesisBlock;
                                 EvGetenv "ORDERER_LEDGER_TYPE";
                                 EvTempDir (config.Prefix (config.fileLedger conf))],
                                Panicked (PanicTempDir err)))
                        ∨ (∃ t1 rawledger,
                             launchSolo_rawledger P H conf genesisBlock
                             = (t1, Done rawledger)
                             ∧ Forall (λ e, is_kafka_only e = false
                                            ∧ is_bootstrap e = false) t1))))))).
Proof.
  destruct (net_Listen H _) as [lis|err] eqn:Hl.
  2:{ left. exists err. split; [done|]. unfold launchSolo. simpl. by rewrite Hl. }
  right. exists lis. split; [done|].
  destruct (decide (config.GenesisMethod (config.general conf) = "static")) as [Hs|Hs].
  2:{ left. split; [done|]. unfold launchSolo. simpl. rewrite Hl.
      by rewrite decide_False. }
  right. split; [done|].
  destruct (static_GenesisBlock P) as [genesisBlock|err] eqn:Hg.
  2:{ left. exists err. split; [done|]. unfold launchSolo. simpl. rewrite Hl.
      rewrite decide_True by done. simpl. by rewrite Hg. }
  right. exists genesisBlock. split; [done|].
  destruct (launchSolo_rawledger_cases conf genesisBlock)
    as [(t1 & rawledger & E1 & Ht1) | (err & _ & _ & _ & E1)].
  - right. by exists t1, rawledger.
  - left. exists err. split; [done|]. unfold launchSolo. simpl. rewrite Hl.
    rewrite decide_True by done. simpl. by rewrite Hg, E1.
Qed.

End LaunchSoloCases.

(** X5: when the listener cannot be opened, launchSolo prints the error and
    returns: it does not panic, and it neither retrieves a genesis block
    nor builds a ledger, whatever the rest of the configuration is. *)
Theorem launchSolo_listen_failure_returns
    (P : Packages) (X : Configtx P) (H : Host) (fuel : nat) (conf : config.TopLevel)
    (err : error) :
  net_Listen H (Sprintf_address (config.ListenAddress (config.general conf))
                  (config.ListenPort (config.general conf))) = inr err →
  launchSolo P X H fuel conf
  = ([EvGrpcNewServer;
      EvListen (Sprintf_address (config.ListenAddress (config.general conf))
                  (config.ListenPort (config.general conf)));
      EvPrintln ("Failed to listen: " +:+ err)], Done tt).
Proof. intros Hl. unfold launchSolo. simpl. by rewrite Hl. Qed.

Lemma launchSolo_listen_failure_returns_witness :
  launchSolo Fixture.P2 (Fixture.configtx Fixture.P2 Fixture.allowAll)
    (Failing.host false "ram" true (inl ("info", false)) false) 3 (Failing.conf "dynamic")
  = ([EvGrpcNewServer; EvListen "127.0.0.1:5151";
      EvPrintln "Failed to listen: bind: address already in use"], Done tt).
Proof.
  apply (launchSolo_listen_failure_returns Fixture.P2
           (Fixture.configtx Fixture.P2 Fixture.allowAll)
           (Failing.host false "ram" true (inl ("info", false)) false) 3
           (Failing.conf "dynamic") "bind: address already in use").
  reflexivity.
Defined.

(** X6: with a genesis method other than "static", launchSolo panics right
    after it listens, before any bootstrapper, ledger or scan. *)
Theorem launchSolo_unknown_genesis_method
    (P : Packages) (X : Configtx P) (H : Host) (fuel : nat) (conf : config.TopLevel)
    (lis : Listener) :
  net_Listen H (Sprintf_address (config.ListenAddress (config.general conf))
                  (config.ListenPort (config.general conf))) = inl lis →
  config.GenesisMethod (config.general conf) ≠ "static" →
  launchSolo P X H fuel conf
  = ([EvGrpcNewServer;
      EvListen (Sprintf_address (config.ListenAddress (config.general conf))
                  (config.ListenPort (config.general conf)))],
     Panicked (PanicUnknownGenesisMethod (config.GenesisMethod (config.general conf)))).
Proof.
  intros Hl Hs. unfold launchSolo. simpl. rewrite Hl. by rewrite decide_False.
Qed.

Lemma launchSolo_unknown_genesis_method_witness :
  launchSolo Fixture.P1 (Fixture.configtx Fixture.P1 Fixture.allowAll)
    (Fixture.host "ram") 3 (Failing.conf "dynamic")
  = ([EvGrpcNewServer; EvListen "127.0.0.1:5151"],
     Panicked (PanicUnknownGenesisMethod "dynamic")).
Proof.
  apply (launchSolo_unknown_genesis_method Fixture.P1
           (Fixture.configtx Fixture.P1 Fixture.allowAll) (Fixture.host "ram") 3
           (Failing.conf "dynamic") {| listen_address := "127.0.0.1:5151" |}).
  - reflexivity.
  - discriminate.
Defined.

(** X7: with the file ledger selected and no location configured, a failure
    to make the temporary directory is a panic; no ledger is built and
    nothing is scanned. *)
Theorem launchSolo_TempDir_failure
    (P : Packages) (X : Configtx P) (H : Host) (fuel : nat) (conf : config.TopLevel)
    (lis : Listener) (genesisBlock : Block) (err : error) :
  net_Listen H (Sprintf_address (config.ListenAddress (config.general conf))
                  (config.ListenPort (config.general conf))) = inl lis →
  config.GenesisMethod (config.general conf) = "static" →
  static_GenesisBlock P = inl genesisBlock →
  os_Getenv H "ORDERER_LEDGER_TYPE" = "file" →
  config.Location (config.fileLedger conf) = "" →
  ioutil_TempDir H "" (config.Prefix (config.fileLedger conf)) = inr err →
  launchSolo P X H fuel conf
  = ([EvGrpcNewServer;
      EvListen (Sprintf_address (config.ListenAddress (config.general conf))
                  (config.ListenPort (config.general conf)));
      EvStaticNew; EvGenesisBlock; EvGetenv "ORDERER_LEDGER_TYPE";
      EvTempDir (config.Prefix (config.fileLedger conf))],
     Panicked (PanicTempDir err)).
Proof.
  intros Hl Hs Hg He Hloc Ht. unfold launchSolo. simpl. rewrite Hl.
  rewrite decide_True by done. simpl. rewrite Hg.
  unfold launchSolo_rawledger. rewrite !decide_True by done. by rewrite Ht.
Qed.

Lemma launchSolo_TempDir_failure_witness :
  launchSolo Fixture.P1 (Fixture.configtx Fixture.P1 Fixture.allowAll)
    (Failing.host true "file" false (inl ("info", false)) false) 3 (Fixture.conf "solo")
  = ([EvGrpcNewServer; EvListen "127.0.0.1:5151"; EvStaticNew; EvGenesisBlock;
      EvGetenv "ORDERER_LEDGER_TYPE"; EvTempDir "hyperledger"],
     Panicked (PanicTempDir "mkdir: permission denied")).
Proof.
  apply (launchSolo_TempDir_failure Fixture.P1
           (Fixture.configtx Fixture.P1 Fixture.allowAll)
           (Failing.host true "file" false (inl ("info", false)) false) 3
           (Fixture.conf "solo") {| listen_address := "127.0.0.1:5151" |}
           Fixture.genesis "mkdir: permission denied"); reflexivity.
Defined.

(** X8: when configtx.NewConfigurationManager rejects the configuration
    the scan found, launchSolo panics with that error after the bootstrap
    steps, without calling solo.New and without serving. *)
Theorem launchSolo_configuration_manager_error
    (P : Packages) (X : Configtx P) (H : Host) (fuel : nat) (conf : config.TopLevel)
    (lis : Listener) (genesisBlock : Block) (t1 t2 : list Event) (rawledger : Reader)
    (lastConfigTx : ConfigurationEnvelope P) (err : error) :
  net_Listen H (Sprintf_address (config.ListenAddress (config.general conf))
                  (config.ListenPort (config.general conf))) = inl lis →
  config.GenesisMethod (config.general conf) = "static" →
  static_GenesisBlock P = inl genesisBlock →
  launchSolo_rawledger P H conf genesisBlock = (t1, Done rawledger) →
  retrieveConfiguration P fuel rawledger = (t2, Done (Some lastConfigTx)) →
  NewConfigurationManager X lastConfigTx
    (policies_NewManagerImpl P (as_CryptoHelper XxxCryptoHelper))
    (configHandlerMap P (policies_NewManagerImpl P (as_CryptoHelper XxxCryptoHelper))
       (map_to_list (Configuration_ConfigurationType_name P)).*1) = inr err →
  launchSolo P X H fuel conf
  = ([EvGrpcNewServer;
      EvListen (Sprintf_address (config.ListenAddress (config.general conf))
                  (config.ListenPort (config.general conf)));
      EvStaticNew; EvGenesisBlock] ++ t1 ++ t2
     ++ [EvNewManagerImpl (as_CryptoHelper XxxCryptoHelper); EvNewConfigurationManager],
     Panicked (PanicConfigurationManager err))
  ∧ serves (trace (launchSolo P X H fuel conf)) = false
  ∧ solo_pipeline (trace (launchSolo P X H fuel conf)) = [].
Proof.
  intros Hl Hs Hg E1 E2 Herr.
  rewrite (launchSolo_listening P X H fuel conf lis genesisBlock t1 rawledger t2 _
             Hl Hs Hg E1 E2).
  rewrite bootstrapConfigManager_outcome, Herr. cbn [trace result fst snd].
  split; [by rewrite <- !app_assoc|].
  destruct (launchSolo_rawledger_quiet P H conf genesisBlock) as [Hq Hp].
  rewrite E1 in Hq, Hp. cbn [trace fst] in Hq, Hp.
  pose proof (retrieveConfiguration_never_serves P fuel rawledger) as Hq2.
  pose proof (retrieveConfiguration_no_pipeline P fuel rawledger) as Hp2.
  rewrite E2 in Hq2, Hp2. cbn [trace fst] in Hq2, Hp2.
  by rewrite !serves_app, !solo_pipeline_app, Hq, Hq2, Hp, Hp2.
Qed.

Lemma launchSolo_configuration_manager_error_witness :
  result (launchSolo Fixture.P1 (Failing.configtx Fixture.P1 "bad configuration")
            (Fixture.host "ram") 3 (Fixture.conf "solo"))
  = Panicked (PanicConfigurationManager "bad configuration")
  ∧ serves (trace (launchSolo Fixture.P1 (Failing.configtx Fixture.P1 "bad configuration")
                     (Fixture.host "ram") 3 (Fixture.conf "solo"))) = false.
Proof.
  destruct (launchSolo_configuration_manager_error Fixture.P1
              (Failing.configtx Fixture.P1 "bad configuration") (Fixture.host "ram") 3
              (Fixture.conf "solo") {| listen_address := "127.0.0.1:5151" |}
              Fixture.genesis
              [EvGetenv "ORDERER_LEDGER_TYPE"; EvRamLedgerNew 10000 Fixture.genesis]
              [EvIterator SeekInfo_OLDEST 0; EvNext Status_SUCCESS]
              (Fixture.ramOf Fixture.genesis) [x01] "bad configuration")
    as (Hrun & Hserve & _); try reflexivity.
  split; [by rewrite Hrun | exact Hserve].
Defined.

(** X9: when every bootstrap step goes through, launchSolo hands solo.New
    the configured queue size, batch size, window size and batch timeout
    together with the very ledger it scanned, then serves on the listener
    it opened first, and returns when Serve does. *)
Theorem launchSolo_success_run
    (P : Packages) (X : Configtx P) (H : Host) (fuel : nat) (conf : config.TopLevel)
    (lis : Listener) (genesisBlock : Block) (t1 t2 : list Event) (rawledger : Reader)
    (lastConfigTx : ConfigurationEnvelope P) (configManager : Manager X) :
  net_Listen H (Sprintf_address (config.ListenAddress (config.general conf))
                  (config.ListenPort (config.general conf))) = inl lis →
  config.GenesisMethod (config.general conf) = "static" →
  static_GenesisBlock P = inl genesisBlock →
  launchSolo_rawledger P H conf genesisBlock = (t1, Done rawledger) →
  retrieveConfiguration P fuel rawledger = (t2, Done (Some lastConfigTx)) →
  NewConfigurationManager X lastConfigTx
    (policies_NewManagerImpl P (as_CryptoHelper XxxCryptoHelper))
    (configHandlerMap P (policies_NewManagerImpl P (as_CryptoHelper XxxCryptoHelper))
       (map_to_list (Configuration_ConfigurationType_name P)).*1) = inl configManager →
  launchSolo P X H fuel conf
  = ([EvGrpcNewServer;
      EvListen (Sprintf_address (config.ListenAddress (config.general conf))
                  (config.ListenPort (config.general conf)));
      EvStaticNew; EvGenesisBlock] ++ t1 ++ t2
     ++ [EvNewManagerImpl (as_CryptoHelper XxxCryptoHelper); EvNewConfigurationManager;
         EvSoloNew
           {| solo_queueSize := int (config.QueueSize (config.general conf));
              solo_batchSize := int (config.BatchSize (config.general conf));
              solo_maxWindowSize := int (config.MaxWindowSize (config.general conf));
              solo_batchTimeout := config.BatchTimeout (config.general conf);
              solo_rl := rawledger |};
         EvServe lis],
     Done tt).
Proof.
  intros Hl Hs Hg E1 E2 Hok.
  rewrite (launchSolo_listening P X H fuel conf lis genesisBlock t1 rawledger t2 _
             Hl Hs Hg E1 E2).
  rewrite bootstrapConfigManager_outcome, Hok. cbn [trace result fst snd].
  by rewrite <- !app_assoc.
Qed.

Lemma launchSolo_success_run_witness :
  solo_pipeline (trace (launchSolo Fixture.P1 (Fixture.configtx Fixture.P1 Fixture.allowAll)
                          (Fixture.host "file") 9 (Fixture.conf "solo")))
  = [ {| solo_queueSize := 1000; solo_batchSize := 10; solo_maxWindowSize := 1000;
         solo_batchTimeout := 10;
         solo_rl := Fixture.fileOf Fixture.chain1 Fixture.genesis |} ]
  ∧ result (launchSolo Fixture.P1 (Fixture.configtx Fixture.P1 Fixture.allowAll)
              (Fixture.host "file") 9 (Fixture.conf "solo")) = Done tt.
Proof.
  rewrite (launchSolo_success_run Fixture.P1 (Fixture.configtx Fixture.P1 Fixture.allowAll)
             (Fixture.host "file") 9 (Fixture.conf "solo")
             {| listen_address := "127.0.0.1:5151" |} Fixture.genesis
             [EvGetenv "ORDERER_LEDGER_TYPE"; EvTempDir "hyperledger";
              EvFileLedgerNew "/tmp/hyperledger" Fixture.genesis]
             (EvIterator SeekInfo_OLDEST 0 :: replicate 7 (EvNext Status_SUCCESS))
             (Fixture.fileOf Fixture.chain1 Fixture.genesis) Fixture.configB
             Fixture.allowAll); try reflexivity.
  split; reflexivity.
Defined.

Section ScanOutcomes.

Context (P : Packages).

(** The scan never exits the process, and panics only on a failed Next or
    on one of Go's run-time panics. *)
Lemma loop_outcomes fuel rl :
  ∀ it lastConfigTx,
    match result (retrieveConfiguration_loop P fuel rl it lastConfigTx) with
    | Panicked p => is_scan_panic p = true
    | Exited _ => False
    | _ => True
    end.
Proof.
  induction fuel as [|fuel IH]; intros it lastConfigTx; [done|].
  cbn [retrieveConfiguration_loop].
  destruct (ReadyChan rl it); [|done].
  destruct (Next rl it) as [[block status] it'].
  rewrite emit_bind. cbn [result snd].
  destruct (decide (status ≠ Status_SUCCESS)); [done|].
  destruct block as [block|]; [|done].
  destruct (decide (length (Messages block) ≠ 1%nat)); [apply IH|].
  destruct (Messages block !! 0%nat) as [m|]; [|done].
  destruct (proto_Unmarshal P (Data m)); apply IH.
Qed.

Lemma retrieveConfiguration_outcomes fuel rl :
  match result (retrieveConfiguration P fuel rl) with
  | Panicked p => is_scan_panic p = true
  | Exited _ => False
  | _ => True
  end.
Proof.
  unfold retrieveConfiguration. rewrite emit_bind. cbn [result snd].
  apply loop_outcomes.
Qed.

End ScanOutcomes.

(** X10: launchSolo serves exactly when the listener opens, the genesis
    method is "static", the genesis block is retrieved, the ledger is
    built, the scan returns a configuration and the configuration manager
    accepts it. *)
Theorem launchSolo_serves_iff
    (P : Packages) (X : Configtx P) (H : Host) (fuel : nat) (conf : config.TopLevel) :
  serves (trace (launchSolo P X H fuel conf)) = true ↔
  ∃ lis genesisBlock t1 rawledger t2 lastConfigTx configManager,
    net_Listen H (Sprintf_address (config.ListenAddress (config.general conf))
                    (config.ListenPort (config.general conf))) = inl lis
    ∧ config.GenesisMethod (config.general conf) = "static"
    ∧ static_GenesisBlock P = inl genesisBlock
    ∧ launchSolo_rawledger P H conf genesisBlock = (t1, Done rawledger)
    ∧ retrieveConfiguration P fuel rawledger = (t2, Done (Some lastConfigTx))
    ∧ result (bootstrapConfigManager P X lastConfigTx) = Done configManager.
Proof.
  split.
  - destruct (launchSolo_cases P X H fuel conf)
      as [(err & _ & ->) | (lis & Hl & [[_ ->] | [Hs [(err & _ & ->) |
           (genesisBlock & Hg & [(err & _ & ->) | (t1 & rawledger & E1 & _)])]]])];
      try discriminate.
    destruct (launchSolo_rawledger_quiet P H conf genesisBlock) as [Hq _].
    rewrite E1 in Hq. cbn [trace fst] in Hq.
    pose proof (retrieveConfiguration_never_serves P fuel rawledger) as Hq2.
    destruct (retrieveConfiguration P fuel rawledger) as [t2 r2] eqn:E2.
    cbn [trace fst] in Hq2.
    rewrite (launchSolo_listening P X H fuel conf lis genesisBlock t1 rawledger t2 r2
               Hl Hs Hg E1 E2).
    destruct r2 as [[lastConfigTx|]| | |]; cbn [trace fst];
      rewrite ?serves_app, ?Hq, ?Hq2; try discriminate.
    rewrite bootstrapConfigManager_trace.
    destruct (result (bootstrapConfigManager P X lastConfigTx)) as [cm| | |] eqn:E3;
      cbn [trace fst]; rewrite ?serves_app, ?Hq, ?Hq2; try discriminate.
    intros _. by exists lis, genesisBlock, t1, rawledger, t2, lastConfigTx, cm.
  - intros (lis & genesisBlock & t1 & rawledger & t2 & lastConfigTx & cm
            & Hl & Hs & Hg & E1 & E2 & E3).
    rewrite (launchSolo_listening P X H fuel conf lis genesisBlock t1 rawledger t2 _
               Hl Hs Hg E1 E2), E3.
    cbn [trace fst]. rewrite !serves_app. cbn. by rewrite !orb_true_r.
Qed.

Lemma launchSolo_serves_iff_witness :
  serves (trace (launchSolo Fixture.P1 (Fixture.configtx Fixture.P1 Fixture.denyAll)
                   (Fixture.host "ram") 3 (Fixture.conf "solo"))) = true
  ∧ ∃ lis, net_Listen (Fixture.host "file")
             (Sprintf_address "127.0.0.1" 5151) = inl lis.
Proof.
  split.
  - apply (launchSolo_serves_iff Fixture.P1 (Fixture.configtx Fixture.P1 Fixture.denyAll)
             (Fixture.host "ram") 3 (Fixture.conf "solo")).
    exists {| listen_address := "127.0.0.1:5151" |}, Fixture.genesis,
      [EvGetenv "ORDERER_LEDGER_TYPE"; EvRamLedgerNew 10000 Fixture.genesis],
      (Fixture.ramOf Fixture.genesis),
      [EvIterator SeekInfo_OLDEST 0; EvNext Status_SUCCESS], [x01], Fixture.denyAll.
    repeat split.
  - destruct (proj1 (launchSolo_serves_iff Fixture.P1
                       (Fixture.configtx Fixture.P1 Fixture.denyAll)
                       (Fixture.host "file") 9 (Fixture.conf "solo")) eq_refl)
      as (lis & _ & _ & _ & _ & _ & _ & Hl & _).
    by exists lis.
Defined.

(** Every panic of launchSolo, with the step that raised it. *)
Lemma launchSolo_panic_inversion
    (P : Packages) (X : Configtx P) (H : Host) (fuel : nat) (conf : config.TopLevel)
    (p : PanicValue) :
  result (launchSolo P X H fuel conf) = Panicked p →
  ∃ lis,
    net_Listen H (Sprintf_address (config.ListenAddress (config.general conf))
                    (config.ListenPort (config.general conf))) = inl lis
    ∧ ((config.GenesisMethod (config.general conf) ≠ "static"
        ∧ p = PanicUnknownGenesisMethod (config.GenesisMethod (config.general conf)))
       ∨ (config.GenesisMethod (config.general conf) = "static"
          ∧ ((∃ err, static_GenesisBlock P = inr err ∧ p = PanicGenesisBlock err)
             ∨ (∃ genesisBlock,
                  static_GenesisBlock P = inl genesisBlock
                  ∧ ((∃ err,
                        os_Getenv H "ORDERER_LEDGER_TYPE" = "file"
                        ∧ config.Location (config.fileLedger conf) = ""
                        ∧ ioutil_TempDir H "" (config.Prefix (config.fileLedger conf))
                          = inr err
                        ∧ p = PanicTempDir err)
                     ∨ (∃ t1 rawledger,
                          launchSolo_rawledger P H conf genesisBlock = (t1, Done rawledger)
                          ∧ ((result (retrieveConfiguration P fuel rawledger) = Panicked p
                              ∧ is_scan_panic p = true)
                             ∨ (result (retrieveConfiguration P fuel rawledger) = Done None
                                ∧ p = PanicNoChainConfiguration)
                             ∨ (∃ lastConfigTx err,
                                  result (retrieveConfiguration P fuel rawledger)
                                  = Done (Some lastConfigTx)
                                  ∧ NewConfigurationManager X lastConfigTx
                                      (policies_NewManagerImpl P
                                         (as_CryptoHelper XxxCryptoHelper))
                                      (configHandlerMap P
                                         (policies_NewManagerImpl P
                                            (as_CryptoHelper XxxCryptoHelper))
                                         (map_to_list
                                            (Configuration_ConfigurationType_name P)).*1)
                                    = inr err
                                  ∧ p = PanicConfigurationManager err)))))))).
Proof.
  intros Hp.
  destruct (launchSolo_cases P X H fuel conf)
    as [(err & _ & E) | (lis & Hl & [[Hs E] | [Hs [(err & Hg & E) |
         (genesisBlock & Hg & [(err & E1 & E) | (t1 & rawledger & E1 & _)])]]])].
  - rewrite E in Hp. discriminate Hp.
  - rewrite E in Hp. injection Hp as <-. exists lis. split; [done|]. by left.
  - rewrite E in Hp. injection Hp as <-. exists lis. split; [done|]. right.
    split; [done|]. left. by exists err.
  - rewrite E in Hp. injection Hp as <-. exists lis. split; [done|]. right.
    split; [done|]. right. exists genesisBlock. split; [done|]. left.
    destruct (launchSolo_rawledger_cases P H conf genesisBlock)
      as [(t1 & rawledger & E1' & _) | (err' & He & Hloc & Ht & E1')];
      rewrite E1 in E1'; [discriminate E1'|].
    injection E1' as <-. by exists err.
  - exists lis. split; [done|]. right. split; [done|]. right.
    exists genesisBlock. split; [done|]. right. exists t1, rawledger. split; [done|].
    pose proof (retrieveConfiguration_outcomes P fuel rawledger) as Ho.
    destruct (retrieveConfiguration P fuel rawledger) as [t2 r2] eqn:E2.
    cbn [result snd] in Ho |- *.
    rewrite (launchSolo_listening P X H fuel conf lis genesisBlock t1 rawledger t2 r2
               Hl Hs Hg E1 E2) in Hp.
    destruct r2 as [[lastConfigTx|]|p'| |]; cbn [result snd] in Hp; try discriminate Hp.
    + right. right. exists lastConfigTx.
      rewrite bootstrapConfigManager_outcome in Hp. cbn [result snd] in Hp.
      destruct (NewConfigurationManager X _ _ _) as [cm|err] eqn:Ecm;
        cbn [result snd] in Hp; [discriminate Hp|].
      injection Hp as <-. by exists err.
    + right. left. injection Hp as <-. done.
    + left. injection Hp as <-. done.
Qed.

(** X11: launchSolo panics for six reasons only, each the failure of one
    step after the listener is open: a genesis method other than
    "static", an error from the genesis-block retrieval, a failure to make
    the temporary directory of a file ledger without a location, a panic
    of the scan, a scan that returns nil, and an error from
    configtx.NewConfigurationManager on the configuration found.  A
    failure to listen is never a panic. *)
Theorem launchSolo_panic_causes
    (P : Packages) (X : Configtx P) (H : Host) (fuel : nat) (conf : config.TopLevel)
    (p : PanicValue) :
  result (launchSolo P X H fuel conf) = Panicked p →
  ∃ lis,
    net_Listen H (Sprintf_address (config.ListenAddress (config.general conf))
                    (config.ListenPort (config.general conf))) = inl lis
    ∧ ((config.GenesisMethod (config.general conf) ≠ "static"
        ∧ p = PanicUnknownGenesisMethod (config.GenesisMethod (config.general conf)))
       ∨ (config.GenesisMethod (config.general conf) = "static"
          ∧ ((∃ err, static_GenesisBlock P = inr err ∧ p = PanicGenesisBlock err)
             ∨ (∃ genesisBlock,
                  static_GenesisBlock P = inl genesisBlock
                  ∧ ((∃ err,
                        os_Getenv H "ORDERER_LEDGER_TYPE" = "file"
                        ∧ config.Location (config.fileLedger conf) = ""
                        ∧ ioutil_TempDir H "" (config.Prefix (config.fileLedger conf))
                          = inr err
                        ∧ p = PanicTempDir err)
                     ∨ (∃ t1 rawledger,
                          launchSolo_rawledger P H conf genesisBlock = (t1, Done rawledger)
                          ∧ ((result (retrieveConfiguration P fuel rawledger) = Panicked p
                              ∧ is_scan_panic p = true)
                             ∨ (result (retrieveConfiguration P fuel rawledger) = Done None
                                ∧ p = PanicNoChainConfiguration)
                             ∨ (∃ lastConfigTx err,
                                  result (retrieveConfiguration P fuel rawledger)
                                  = Done (Some lastConfigTx)
                                  ∧ NewConfigurationManager X lastConfigTx
                                      (policies_NewManagerImpl P
                                         (as_CryptoHelper XxxCryptoHelper))
                                      (configHandlerMap P
                                         (policies_NewManagerImpl P
                                            (as_CryptoHelper XxxCryptoHelper))
                                         (map_to_list
                                            (Configuration_ConfigurationType_name P)).*1)
                                    = inr err
                                  ∧ p = PanicConfigurationManager err)))))))).
Proof. apply launchSolo_panic_inversion. Qed.

(** The panic of a startup whose ledger fails on its first Next. *)
Lemma launchSolo_panic_causes_witness :
  ∃ t1 rawledger,
    launchSolo_rawledger Fixture.P3 (Fixture.host "ram") (Fixture.conf "solo")
      Fixture.genesis = (t1, Done rawledger)
    ∧ result (retrieveConfiguration Fixture.P3 7 rawledger)
      = Panicked (PanicParsingBlockchain Status_SERVICE_UNAVAILABLE).
Proof.
  destruct (launchSolo_panic_causes Fixture.P3
              (Fixture.configtx Fixture.P3 Fixture.allowAll) (Fixture.host "ram") 7
              (Fixture.conf "solo")
              (PanicParsingBlockchain Status_SERVICE_UNAVAILABLE) eq_refl)
    as (lis & _ & [[Hs _] | [_ [(err & Hg & _) | (genesisBlock & Hg & Hrest)]]]).
  - exfalso. by apply Hs.
  - discriminate Hg.
  - injection Hg as <-.
    destruct Hrest as [(err & _ & _ & _ & Hp) | (t1 & rawledger & E1 & Hscan)];
      [discriminate Hp|].
    exists t1, rawledger. split; [exact E1|].
    destruct Hscan as [[Hr _] | [[_ Hp] | (c & err & _ & _ & Hp)]];
      [exact Hr | discriminate Hp | discriminate Hp].
Defined.

(** ** More on launchKafka and main *)

(** An event that differs from every event of a trace written out. *)
Ltac absent_from_trace :=
  let Hin := fresh "Hin" in
  intros Hin;
  repeat (apply elem_of_cons in Hin as [Hin|Hin]; [discriminate Hin|]);
  by apply elem_of_nil in Hin.

(** launchKafka, call by call. *)
Lemma launchKafka_run H conf :
  launchKafka H conf
  = match flag_Parse H with
    | inr code => ([EvFlagParse], Exited code)
    | inl (loglevel, verbose) =>
      let address := Sprintf_address (config.ListenAddress (config.general conf))
                                     (config.ListenPort (config.general conf)) in
      let before :=
        [EvFlagParse; EvKafkaSetLogLevel loglevel]
        ++ (if verbose : bool then [EvSaramaLogger] else [])
        ++ [EvKafkaNew (withKafkaVersion conf sarama_V0_9_0_1); EvListen address] in
      match net_Listen H address with
      | inr err => (before ++ [EvKafkaTeardown], Panicked (PanicListen err))
      | inl lis =>
        if interrupted H then
          (before ++ [EvGrpcNewServer; EvRegisterAtomicBroadcastServer; EvGoServe lis;
                      EvSignalNotify; EvPrintln "Server shutting down"; EvKafkaTeardown],
           Done tt)
        else
          (before ++ [EvGrpcNewServer; EvRegisterAtomicBroadcastServer; EvGoServe lis;
                      EvSignalNotify],
           Running)
      end
    end.
Proof.
  unfold launchKafka.
  destruct (flag_Parse H) as [[loglevel verbose]|code]; [|done].
  cbn [config.general config.ListenAddress config.ListenPort].
  destruct verbose;
    (destruct (net_Listen H _); [destruct (interrupted H)|]); reflexivity.
Qed.

(** X12: how launchKafka ends depends on the flags, the listener and the
    interrupt only: the process exits when the flags do not parse, it
    panics when the listener cannot be opened, it returns after an
    interrupt, and it keeps serving otherwise.  It serves exactly when the
    flags parse and the listener opens. *)
Theorem launchKafka_outcomes (H : Host) (conf : config.TopLevel) :
  result (launchKafka H conf)
  = match flag_Parse H with
    | inr code => Exited code
    | inl _ =>
      match net_Listen H (Sprintf_address (config.ListenAddress (config.general conf))
                            (config.ListenPort (config.general conf))) with
      | inr err => Panicked (PanicListen err)
      | inl _ => if interrupted H then Done tt else Running
      end
    end
  ∧ (serves (trace (launchKafka H conf)) = true ↔
     ∃ flags lis,
       flag_Parse H = inl flags
       ∧ net_Listen H (Sprintf_address (config.ListenAddress (config.general conf))
                         (config.ListenPort (config.general conf))) = inl lis).
Proof.
  rewrite launchKafka_run.
  destruct (flag_Parse H) as [[loglevel verbose]|code].
  2:{ split; [done|]. split; [done|]. by intros (? & ? & ? & _). }
  cbn zeta.
  destruct (net_Listen H _) as [lis|err].
  - split; [by destruct (interrupted H)|].
    split; [intros _; by eexists _, _|]. intros _.
    destruct verbose, (interrupted H); reflexivity.
  - split; [done|]. split; [|by intros (? & ? & _ & ?)].
    destruct verbose; discriminate.
Qed.

(** X13: the deferred Teardown of the kafka orderer runs exactly when
    launchKafka leaves by returning or by panicking: it is then the last
    call, it happens once, and kafka.New came before it; while launchKafka
    keeps serving, and when the process exits over its flags, Teardown is
    not called. *)
Theorem launchKafka_teardown (H : Host) (conf : config.TopLevel) :
  match result (launchKafka H conf) with
  | Done _ | Panicked _ =>
    ∃ t, (trace (launchKafka H conf) = t ++ [EvKafkaTeardown])
         ∧ (EvKafkaTeardown ∉ t)
         ∧ (kafka_New_calls t = [withKafkaVersion conf sarama_V0_9_0_1])
  | Exited _ | Running => EvKafkaTeardown ∉ trace (launchKafka H conf)
  end.
Proof.
  rewrite launchKafka_run.
  destruct (flag_Parse H) as [[loglevel verbose]|code].
  2:{ cbn [trace result fst snd]. absent_from_trace. }
  cbn zeta.
  destruct (net_Listen H _) as [lis|err]; [destruct (interrupted H)|];
    cbn [trace result fst snd].
  - exists ([EvFlagParse; EvKafkaSetLogLevel loglevel]
            ++ (if verbose then [EvSaramaLogger] else [])
            ++ [EvKafkaNew (withKafkaVersion conf sarama_V0_9_0_1);
                EvListen (Sprintf_address (config.ListenAddress (config.general conf))
                            (config.ListenPort (config.general conf)));
                EvGrpcNewServer; EvRegisterAtomicBroadcastServer; EvGoServe lis;
                EvSignalNotify; EvPrintln "Server shutting down"]).
    destruct verbose; cbn [app]; (split; [reflexivity|]);
      (split; [absent_from_trace | reflexivity]).
  - destruct verbose; cbn [app]; absent_from_trace.
  - eexists. split; [reflexivity|].
    destruct verbose; cbn [app]; (split; [absent_from_trace | reflexivity]).
Qed.

(** X14: launchKafka overrides the Kafka version of the loaded
    configuration: two configurations that differ in that version only
    start the same way, and kafka.New is called at most once, with the
    loaded configuration carrying version 0.9.0.1. *)
Theorem launchKafka_overrides_version (H : Host) (conf : config.TopLevel) (v : list Z) :
  launchKafka H (withKafkaVersion conf v) = launchKafka H conf
  ∧ (∀ c, c ∈ kafka_New_calls (trace (launchKafka H conf)) →
          c = withKafkaVersion conf sarama_V0_9_0_1
          ∧ config.Version (config.kafka c) = [0; 9; 0; 1]
          ∧ config.general c = config.general conf
          ∧ config.Brokers (config.kafka c) = config.Brokers (config.kafka conf)).
Proof.
  split; [reflexivity|].
  intros c. rewrite launchKafka_run.
  destruct (flag_Parse H) as [[loglevel verbose]|code].
  2:{ cbn [trace fst kafka_New_calls omap list_omap]. intros Hc. by apply elem_of_nil in Hc. }
  cbn zeta.
  destruct verbose;
    (destruct (net_Listen H _); [destruct (interrupted H)|]);
    cbn [trace fst app kafka_New_calls omap list_omap];
    intros Hc%list_elem_of_singleton; by subst c.
Qed.

Lemma launchKafka_overrides_version_witness :
  launchKafka (Fixture.host "ram") (withKafkaVersion (Failing.conf "static") [0; 10; 0; 0])
  = launchKafka (Fixture.host "ram") (Failing.conf "static")
  ∧ config.Version (config.kafka (withKafkaVersion (Failing.conf "static")
                                    sarama_V0_9_0_1)) = [0; 9; 0; 1].
Proof.
  destruct (launchKafka_overrides_version (Fixture.host "ram") (Failing.conf "static")
              [0; 10; 0; 0]) as [Hsame Hcalls].
  split; [exact Hsame|].
  apply (Hcalls (withKafkaVersion (Failing.conf "static") sarama_V0_9_0_1)).
  left.
Defined.

(** X15: when the listener cannot be opened, launchKafka panics with the
    error, after kafka.New and the deferred Teardown; it creates no gRPC
    server, registers nothing and does not serve. *)
Theorem launchKafka_listen_failure_panics
    (H : Host) (conf : config.TopLevel) (loglevel : string) (verbose : bool) (err : error) :
  flag_Parse H = inl (loglevel, verbose) →
  net_Listen H (Sprintf_address (config.ListenAddress (config.general conf))
                  (config.ListenPort (config.general conf))) = inr err →
  launchKafka H conf
  = ([EvFlagParse; EvKafkaSetLogLevel loglevel]
     ++ (if verbose then [EvSaramaLogger] else [])
     ++ [EvKafkaNew (withKafkaVersion conf sarama_V0_9_0_1);
         EvListen (Sprintf_address (config.ListenAddress (config.general conf))
                     (config.ListenPort (config.general conf)));
         EvKafkaTeardown],
     Panicked (PanicListen err)).
Proof.
  intros Hflag Hl. rewrite launchKafka_run, Hflag. cbn zeta. rewrite Hl.
  by rewrite <- !app_assoc.
Qed.

Lemma launchKafka_listen_failure_panics_witness :
  launchKafka (Failing.host false "ram" true (inl ("debug", true)) false)
    (Fixture.conf "kafka")
  = ([EvFlagParse; EvKafkaSetLogLevel "debug"; EvSaramaLogger;
      EvKafkaNew (withKafkaVersion (Fixture.conf "kafka") sarama_V0_9_0_1);
      EvListen "127.0.0.1:5151"; EvKafkaTeardown],
     Panicked (PanicListen "bind: address already in use")).
Proof.
  apply (launchKafka_listen_failure_panics
           (Failing.host false "ram" true (inl ("debug", true)) false)
           (Fixture.conf "kafka") "debug" true "bind: address already in use");
    reflexivity.
Defined.






(** X17: main panics over the orderer type exactly when the configured
    type is neither "solo" nor "kafka", and then it has called nothing. *)
Theorem main_invalid_orderer_type
    (P : Packages) (X : Configtx P) (H : Host) (fuel : nat) (conf : config.TopLevel) :
  (result (main P X H fuel conf) = Panicked PanicInvalidOrdererType ↔
   config.OrdererType (config.general conf) ≠ "solo"
   ∧ config.OrdererType (config.general conf) ≠ "kafka")
  ∧ (result (main P X H fuel conf) = Panicked PanicInvalidOrdererType →
     trace (main P X H fuel conf) = []).
Proof.
  assert (Hsolo : result (launchSolo P X H fuel conf) ≠ Panicked PanicInvalidOrdererType).
  { intros Hr.
    apply launchSolo_panic_inversion in Hr
      as (lis & _ & [[_ Hp] | [_ [(err & _ & Hp) | (genesisBlock & _ &
           [(err & _ & _ & _ & Hp) | (t1 & rawledger & _ &
             [[_ Hp] | [[_ Hp] | (lastConfigTx & err & _ & _ & Hp)]])])]]]);
      discriminate Hp. }
  assert (Hkafka : result (launchKafka H conf) ≠ Panicked PanicInvalidOrdererType).
  { rewrite launchKafka_run.
    destruct (flag_Parse H) as [[loglevel verbose]|code]; [|done]. cbn zeta.
    destruct (net_Listen H _); [by destruct (interrupted H)|done]. }
  unfold main.
  destruct (decide (config.OrdererType (config.general conf) = "solo")) as [Es|Es].
  { split; [split; [done|tauto]|done]. }
  destruct (decide (config.OrdererType (config.general conf) = "kafka")) as [Ek|Ek].
  { split; [split; [done|tauto]|done]. }
  done.
Qed.

Lemma main_invalid_orderer_type_witness :
  result (main Fixture.P1 (Fixture.configtx Fixture.P1 Fixture.allowAll)
            (Fixture.host "ram") 3 (Fixture.conf "sbft"))
  = Panicked PanicInvalidOrdererType
  ∧ trace (main Fixture.P1 (Fixture.configtx Fixture.P1 Fixture.allowAll)
             (Fixture.host "ram") 3 (Fixture.conf "sbft")) = [].
Proof.
  destruct (main_invalid_orderer_type Fixture.P1
              (Fixture.configtx Fixture.P1 Fixture.allowAll) (Fixture.host "ram") 3
              (Fixture.conf "sbft")) as [Hiff Htrace].
  assert (Hr : result (main Fixture.P1 (Fixture.configtx Fixture.P1 Fixture.allowAll)
                         (Fixture.host "ram") 3 (Fixture.conf "sbft"))
               = Panicked PanicInvalidOrdererType).
  { apply Hiff. split; discriminate. }
  split; [exact Hr | exact (Htrace Hr)].
Defined.

(** ** More on the configuration-handler map *)

(** X18: the handler map depends on which configuration types the range
    visits, not on the order or on visiting one twice: a visited type gets
    its handler, a type that is not visited gets none, and two ranges over
    the same types build the same map. *)
Theorem configHandlerMap_depends_on_visited_types
    (P : Packages) (policyManager : PolicyManager P) (ctypes ctypes' : list Z) :
  (∀ rtype, rtype ∈ ctypes ↔ rtype ∈ ctypes') →
  configHandlerMap P policyManager ctypes = configHandlerMap P policyManager ctypes'
  ∧ (∀ rtype, rtype ∈ ctypes →
       configHandlerMap P policyManager ctypes !! rtype
       = Some (if decide (rtype = Configuration_Policy P)
               then PolicyHandler policyManager else BytesHandler))
  ∧ (∀ rtype, rtype ∉ ctypes → configHandlerMap P policyManager ctypes !! rtype = None).
Proof.
  intros Hsame. unfold configHandlerMap. split; [|split].
  - apply map_eq. intros rtype. rewrite !configHandlerMap_fold.
    destruct (decide (rtype ∈ ctypes)) as [Hin|Hin],
             (decide (rtype ∈ ctypes')) as [Hin'|Hin']; try done.
    + by apply Hsame in Hin.
    + by apply Hsame in Hin'.
  - intros rtype Hin. rewrite configHandlerMap_fold. by rewrite decide_True.
  - intros rtype Hin. rewrite configHandlerMap_fold. by rewrite decide_False.
Qed.

Lemma configHandlerMap_depends_on_visited_types_witness :
  configHandlerMap Fixture.P1 (as_CryptoHelper XxxCryptoHelper) [0; 1; 0]
  = configHandlerMap Fixture.P1 (as_CryptoHelper XxxCryptoHelper) [1; 0]
  ∧ configHandlerMap Fixture.P1 (as_CryptoHelper XxxCryptoHelper) [0; 1; 0] !! 2 = None.
Proof.
  destruct (configHandlerMap_depends_on_visited_types Fixture.P1
              (as_CryptoHelper XxxCryptoHelper) [0; 1; 0] [1; 0]) as (Heq & _ & Hnone).
  - intros rtype. rewrite !elem_of_cons, !elem_of_nil. tauto.
  - split; [exact Heq|]. apply Hnone.
    rewrite !elem_of_cons, elem_of_nil. intros [?|[?|[?|?]]]; discriminate || done.
Defined.

(** X19: bootstrapConfigManager builds the configuration manager from the
    configuration it is given, a policy manager backed by the stand-in
    crypto helper, and a handler map over the declared configuration types
    in which that same policy manager is the handler of the Policy type; it
    returns what configtx.NewConfigurationManager returns and panics with
    its error. *)
Theorem bootstrapConfigManager_wiring
    (P : Packages) (X : Configtx P) (lastConfigTx : ConfigurationEnvelope P) :
  ∃ policyManager configHandlerMap,
    policyManager = policies_NewManagerImpl P (as_CryptoHelper XxxCryptoHelper)
    ∧ dom configHandlerMap = dom (Configuration_ConfigurationType_name P)
    ∧ (∀ rtype, rtype ∈ dom (Configuration_ConfigurationType_name P) →
         configHandlerMap !! rtype
         = Some (if decide (rtype = Configuration_Policy P)
                 then PolicyHandler policyManager else BytesHandler))
    ∧ bootstrapConfigManager P X lastConfigTx
      = ([EvNewManagerImpl (as_CryptoHelper XxxCryptoHelper); EvNewConfigurationManager],
         match NewConfigurationManager X lastConfigTx policyManager configHandlerMap with
         | inl configManager => Done configManager
         | inr err => Panicked (PanicConfigurationManager err)
         end).
Proof.
  eexists _, _. split; [reflexivity|].
  split; [|split; [|apply bootstrapConfigManager_outcome]].
  - apply set_eq. intros rtype. rewrite elem_of_dom.
    rewrite (configHandlerMap_lookup P _ _ rtype) by done.
    destruct (decide (rtype ∈ dom _)) as [Hin|Hin].
    + split; [done|]. by eexists.
    + split; [|done]. by intros [? ?].
  - intros rtype Hin. rewrite (configHandlerMap_lookup P _ _ rtype) by done.
    by rewrite decide_True.
Qed.

(** ** The messages of fabric_next.proto *)

(** Case analysis on the members of a list that is written out. *)
Ltac each_member Hin :=
  repeat (let Heq := fresh "Heq" in
          apply elem_of_cons in Hin as [Heq|Hin]; [simplify_eq|]);
  try (by apply elem_of_nil in Hin).

(** X20: every enum of the file can be read in both directions: each of
    its identifiers has one number and each number one identifier; every
    enum starts at number 0, as proto3 asks; and the enum written in
    Message2 is the Type enumeration with its eight variants. *)
Theorem fabric_next_enums :
  (∀ m e name number,
     m ∈ Schema.messages → e ∈ Schema.menums m → (name, number) ∈ Schema.evalues e →
     Schema.enum_value e name = Some number ∧ Schema.enum_name e number = Some name)
  ∧ (∀ m e,
       m ∈ Schema.messages → e ∈ Schema.menums m →
       ∃ name, head (Schema.evalues e) = Some (name, 0))
  ∧ Schema.menums Schema.Message2
    = [ {| Schema.ename := "Type";
           Schema.evalues :=
             (λ t, (Message2.Type_ident t, Message2.Type_number t)) <$> Message2.Type_all |} ].
Proof.
  split; [|split; [|reflexivity]].
  - intros m e name number Hm He Hv. unfold Schema.messages in Hm.
    each_member Hm; cbn in He; each_member He; cbn in Hv; each_member Hv;
      by split.
  - intros m e Hm He. unfold Schema.messages in Hm.
    each_member Hm; cbn in He; each_member He; by eexists.
Qed.

Lemma fabric_next_enums_witness :
  Schema.enum_value {| Schema.ename := "Cause";
                       Schema.evalues := [ ("TxIdAlreadyExists", 0);
                                           ("RWConflictDuringCommit", 1) ] |}
    "RWConflictDuringCommit" = Some 1
  ∧ Schema.enum_name {| Schema.ename := "Cause";
                        Schema.evalues := [ ("TxIdAlreadyExists", 0);
                                            ("RWConflictDuringCommit", 1) ] |} 1
    = Some "RWConflictDuringCommit".
Proof.
  apply (proj1 fabric_next_enums Schema.InvalidTransaction).
  - unfold Schema.messages. do 10 right. left.
  - left.
  - right. left.
Defined.

(** X21: the file is a well-formed schema: message names are distinct; in
    every message the fields are numbered 1, 2, ... in the order they are
    written and their names are distinct; every field's type is a scalar,
    the imported timestamp, an enum of its own message or a message of the
    file; and the Endorser service takes and returns messages of the
    file. *)
Theorem fabric_next_well_formed :
  NoDup (Schema.mname <$> Schema.messages)
  ∧ (∀ m, m ∈ Schema.messages →
       Schema.fnumber <$> Schema.mfields m
       = seqZ 1 (Z.of_nat (length (Schema.mfields m)))
       ∧ NoDup (Schema.fname <$> Schema.mfields m)
       ∧ Forall (λ f, Schema.resolves m f = true) (Schema.mfields m))
  ∧ (∀ r, r ∈ Schema.Endorser →
       is_Some (Schema.lookupMessage (Schema.rinput r))
       ∧ is_Some (Schema.lookupMessage (Schema.routput r))).
Proof.
  split; [compute_done|]. split.
  - intros m Hm. unfold Schema.messages in Hm.
    each_member Hm; (split; [reflexivity|]); (split; [compute_done|]);
      by repeat constructor.
  - intros r Hr. unfold Schema.Endorser in Hr. each_member Hr. by split; eexists.
Qed.

Lemma fabric_next_well_formed_witness :
  Schema.fnumber <$> Schema.mfields Schema.Action = [1; 2; 3; 4; 5]
  ∧ is_Some (Schema.lookupMessage "ProposalResponse").
Proof.
  destruct fabric_next_well_formed as (_ & Hfields & Hrpc).
  split.
  - apply (Hfields Schema.Action). unfold Schema.messages. do 5 right. left.
  - apply (Hrpc {| Schema.rname := "ProcessProposal"; Schema.rinput := "Proposal";
                   Schema.routput := "ProposalResponse" |}). left.
Defined.

(** X22: no message of the file embeds itself, directly or through other
    messages: message values nest at most three levels deep below any
    message, and that deep below InvalidTransaction. *)
Theorem fabric_next_nesting_is_finite :
  (∀ m, m ∈ Schema.messages →
     ∃ d, Schema.depth (length Schema.messages) (Schema.mname m) = Some d ∧ (d ≤ 3)%nat)
  ∧ Schema.depth (length Schema.messages) "InvalidTransaction" = Some 3%nat.
Proof.
  split; [|reflexivity].
  intros m Hm. unfold Schema.messages in Hm.
  each_member Hm; eexists; (split; [reflexivity|]); lia.
Qed.

Lemma fabric_next_nesting_is_finite_witness :
  ∃ d, Schema.depth (length Schema.messages) "Envelope" = Some d ∧ (d ≤ 3)%nat.
Proof.
  apply (proj1 fabric_next_nesting_is_finite Schema.Envelope). left.
Defined.

(** X23: wherever a field's comment carries the acronym NDD, the field
    holds the serialized bytes of a message and not the message itself: it
    is a single bytes field.  There are three such fields. *)
Theorem fabric_next_NDD_fields_are_bytes :
  (∀ m f,
     m ∈ Schema.messages → f ∈ Schema.mfields m → Schema.NDD f = true →
     Schema.ftype f = Schema.bytes_ ∧ Schema.repeated f = false)
  ∧ (m ← Schema.messages;
     (λ f, (Schema.mname m, Schema.fname f)) <$> filter (λ f, Schema.NDD f = true)
                                                   (Schema.mfields m))
    = [ ("Action", "proposalHash"); ("ProposalResponse", "actionBytes");
        ("EndorsedAction", "actionBytes") ].
Proof.
  split; [|reflexivity].
  intros m f Hm Hf HN. unfold Schema.messages in Hm.
  each_member Hm; cbn in Hf; each_member Hf; try discriminate HN; by split.
Qed.

Lemma fabric_next_NDD_fields_are_bytes_witness :
  Schema.ftype {| Schema.fname := "proposalHash"; Schema.fnumber := 1;
                  Schema.ftype := Schema.bytes_; Schema.repeated := false;
                  Schema.NDD := true |} = Schema.bytes_
  ∧ false = false.
Proof.
  apply (proj1 fabric_next_NDD_fields_are_bytes Schema.Action).
  - unfold Schema.messages. do 5 right. left.
  - left.
  - reflexivity.
Defined.
